(** * python_dash: oil price dashboard and ship flows

  A shallow embedding of the computational parts of [src/app.py]
  (fetching, the rolling price history, the spread, the history table) and
  of [src/ship_flows_mock.py] (port lookup and linear interpolation of ship
  positions), with the properties of the specification stated over it.

  Python values are embedded as the interpreter has them: JSON numbers are
  unbounded integers or IEEE binary64 floats (Rocq's primitive floats),
  exceptions are an explicit error result, and [datetime.now()] is the
  number of microseconds of the naive local date. *)

From Stdlib Require Import ZArith List String Ascii Bool Floats Sorted Lia.
From Stdlib Require Import DecimalString.
Import ListNotations.

Set Warnings "-inexact-float,-register-all".
Local Open Scope Z_scope.

(** ** Python values, exceptions and the builtins the scripts use *)

Module Py.

(** What [json.loads] can produce. A dict is kept as its list of items:
    keys of a parsed object are unique and lookups take the first match. *)
Inductive pyval : Type :=
| PNone
| PBool (b : bool)
| PInt (z : Z)
| PFloat (f : float)
| PStr (s : string)
| PList (l : list pyval)
| PDict (items : list (string * pyval)).

Inductive exn : Type :=
| RequestException   (* transport failure of requests.get, timeout included *)
| JSONDecodeError    (* requests.exceptions.JSONDecodeError, a RequestException *)
| AttributeError
| TypeError
| ValueError
| OverflowError.

Inductive result (A : Type) : Type :=
| Ok (a : A)
| Raise (e : exn).
Arguments Ok {A} a.
Arguments Raise {A} e.

Definition bind {A B : Type} (m : result A) (k : A -> result B) : result B :=
  match m with
  | Ok a => k a
  | Raise e => Raise e
  end.

Fixpoint dict_lookup (k : string) (items : list (string * pyval)) : option pyval :=
  match items with
  | [] => None
  | (k', v) :: rest => if String.eqb k' k then Some v else dict_lookup k rest
  end.

(** [v.get(k, d)]: only a dict has the method. *)
Definition py_get (v : pyval) (k : string) (d : pyval) : result pyval :=
  match v with
  | PDict items =>
      match dict_lookup k items with
      | Some x => Ok x
      | None => Ok d
      end
  | _ => Raise AttributeError
  end.

(** [float(z)] for an int: correctly rounded (to nearest, ties to even);
    an int beyond the largest double raises OverflowError. *)
Definition float_of_int (z : Z) : result float :=
  let f := SF2Prim (binary_normalize prec emax z 0 false) in
  if PrimFloat.is_infinity f then Raise OverflowError else Ok f.

Inductive pynum : Type :=
| NInt (z : Z)
| NFloat (f : float).

(** bool is a subclass of int. *)
Definition as_num (v : pyval) : option pynum :=
  match v with
  | PBool b => Some (NInt (Z.b2z b))
  | PInt z => Some (NInt z)
  | PFloat f => Some (NFloat f)
  | _ => None
  end.

(** [a - b] *)
Definition py_sub (a b : pyval) : result pyval :=
  match as_num a, as_num b with
  | Some (NInt x), Some (NInt y) => Ok (PInt (x - y))
  | Some (NFloat x), Some (NFloat y) => Ok (PFloat (x - y)%float)
  | Some (NInt x), Some (NFloat y) =>
      bind (float_of_int x) (fun fx => Ok (PFloat (fx - y)%float))
  | Some (NFloat x), Some (NInt y) =>
      bind (float_of_int y) (fun fy => Ok (PFloat (x - fy)%float))
  | _, _ => Raise TypeError
  end.

End Py.

Import Py.

Notation "x <- m ;; k" := (Py.bind m (fun x => k))
(at level 61, m at next level, right associativity).

(** ** src/app.py *)

Module App.

(** *** fetch_oil_prices *)

(** A response as the function reads it: the status code and what
    [.json()] returns, [None] when the body is not JSON and the call raises. *)
Record response : Type := { status_code : Z; json : option pyval }.

(** The outcome of one [requests.get(..., timeout=10)]. *)
Inductive http : Type :=
| Fails                       (* raises a RequestException *)
| Responds (r : response).

Definition requests_get (o : http) : result response :=
  match o with
  | Fails => Raise RequestException
  | Responds r => Ok r
  end.

Definition response_json (r : response) : result pyval :=
  match json r with
  | Some v => Ok v
  | None => Raise JSONDecodeError
  end.

(** One entry of the returned dict: ['price'], ['timestamp'], ['success']. *)
Record quote : Type := { price : pyval; timestamp : pyval; success : bool }.

(** The returned dict: ['wti'] and ['brent']. *)
Record prices : Type := { wti : quote; brent : quote }.

(** The [st.error] calls of the function. *)
Inductive st_error : Type :=
| ApiError (wti_status brent_status : Z)
| NetworkError (e : exn)
| UnexpectedError (e : exn).

(** [data.get('data', {}).get('rates', {}).get(symbol, 0)] *)
Definition rate_of (data : pyval) (symbol : string) : result pyval :=
  d <- py_get data "data" (PDict []) ;;
  r <- py_get d "rates" (PDict []) ;;
  py_get r symbol (PInt 0).

(** [data.get('data', {}).get('timestamp', 0)] *)
Definition timestamp_of (data : pyval) : result pyval :=
  d <- py_get data "data" (PDict []) ;;
  py_get d "timestamp" (PInt 0).

(** The body of the [try]: the value returned together with the message
    shown, or the exception that leaves the block. *)
Definition fetch_try (w b : http) : result (option prices * list st_error) :=
  wti_response <- requests_get w ;;
  brent_response <- requests_get b ;;
  if (status_code wti_response =? 200) && (status_code brent_response =? 200) then
    wti_data <- response_json wti_response ;;
    brent_data <- response_json brent_response ;;
    wp <- rate_of wti_data "WTI" ;;
    wt <- timestamp_of wti_data ;;
    bp <- rate_of brent_data "BRENT" ;;
    bt <- timestamp_of brent_data ;;
    Ok (Some {| wti := {| price := wp; timestamp := wt; success := true |};
                brent := {| price := bp; timestamp := bt; success := true |} |},
        [])
  else
    Ok (None, [ApiError (status_code wti_response) (status_code brent_response)]).

(** [except requests.exceptions.RequestException] comes first. *)
Definition is_request_exception (e : exn) : bool :=
  match e with
  | RequestException | JSONDecodeError => true
  | _ => false
  end.

(** The whole function: no exception escapes the two handlers. The
    arguments are the outcomes of the WTI and of the Brent request. *)
Definition fetch_oil_prices (w b : http) : option prices * list st_error :=
  match fetch_try w b with
  | Ok r => r
  | Raise e =>
      if is_request_exception e then (None, [NetworkError e])
      else (None, [UnexpectedError e])
  end.

(** *** format_price *)

Section Display.

(** Python's [format(price, '.2f')], the builtin behind the f-string: it
    rounds a number to two decimals and raises on a value it cannot format
    (None, a str, a list, a dict, an int too large for a float). *)
Variable format_2f : pyval -> result string.

(** [f"${price:.2f}"] *)
Definition format_price (p : pyval) : result string :=
  s <- format_2f p ;;
  Ok (String "$" s).

(** *** main: the price history kept in the session state *)

(** [datetime.now()]: a naive local date, counted in microseconds. *)
Definition datetime : Type := Z.

(** One element of a history list: ['price'] and ['timestamp']. *)
Record entry : Type := { e_price : pyval; e_timestamp : datetime }.

(** [st.session_state.price_history]: the ['wti'] and the ['brent'] list. *)
Record history : Type := { h_wti : list entry; h_brent : list entry }.

(** The session state: [None] while ['price_history'] is not in it. *)
Definition session_state : Type := option history.

(** The literal 100 of lines 255 to 258. *)
Definition MAX_HISTORY : nat := 100.

(** [l[-n:]] for a positive [n]: the last [n] elements, all of [l] when it
    is shorter. *)
Definition last_n {A : Type} (n : nat) (l : list A) : list A :=
  skipn (List.length l - n) l.

(** Lines 255 to 258, for one list. *)
Definition keep_last {A : Type} (l : list A) : list A :=
  if (MAX_HISTORY <? List.length l)%nat then last_n MAX_HISTORY l else l.

(** Lines 242 to 252, for one list. *)
Definition append_if_success (l : list entry) (q : quote) (current_time : datetime)
  : list entry :=
  if success q then l ++ [ {| e_price := price q; e_timestamp := current_time |} ]
  else l.

(** Lines 240 to 258: the update of the history when [current_prices] is a
    dict. *)
Definition update_history (h : history) (current_prices : prices)
  (current_time : datetime) : history :=
  let w := append_if_success (h_wti h) (wti current_prices) current_time in
  let b := append_if_success (h_brent h) (brent current_prices) current_time in
  {| h_wti := keep_last w; h_brent := keep_last b |}.

(** Lines 238 to 258 and the [else] of line 341: the history after the
    cycle; a fetch that returned [None] leaves it as it is. *)
Definition record (h : history) (current_prices : option prices)
  (current_time : datetime) : history :=
  match current_prices with
  | Some cp => update_history h cp current_time
  | None => h
  end.

(** Lines 231 and 232: the history the script works on. *)
Definition current_history (ss : session_state) : history :=
  match ss with
  | None => {| h_wti := []; h_brent := [] |}
  | Some h => h
  end.

Definition string_is_empty (s : string) : bool :=
  match s with
  | EmptyString => true
  | String _ _ => false
  end.

(** What one run of [main] does to the session state, given the key typed in
    the sidebar, the value [fetch_oil_prices] returned and the clock. The
    rest of [main] only reads the state. *)
Definition main_state (api_key : string) (ss : session_state)
  (current_prices : option prices) (current_time : datetime) : session_state :=
  if string_is_empty api_key then ss
  else
    let h := current_history ss in
    Some (record h current_prices current_time).

(** One run of [main] from the outcomes of the two requests behind the value
    [fetch_oil_prices] returns (fresh, or replayed by the cache). *)
Definition main (api_key : string) (ss : session_state) (w b : http)
  (current_time : datetime) : session_state :=
  main_state api_key ss (fst (fetch_oil_prices w b)) current_time.

(** A cycle of the dashboard: the two request outcomes and the clock. *)
Definition cycle : Type := (http * http * datetime)%type.

Definition run_cycle (api_key : string) (ss : session_state) (c : cycle)
  : session_state :=
  let '(w, b, t) := c in main api_key ss w b t.

(** The reruns of the script, one after the other. *)
Definition run (api_key : string) (ss : session_state) (cs : list cycle)
  : session_state :=
  fold_left (run_cycle api_key) cs ss.

(** *** main: the spread (lines 298 and 299) *)

(** [None] when the branch is not taken; otherwise what the subtraction
    evaluates to. *)
Definition spread (current_prices : prices) : option (result pyval) :=
  if success (wti current_prices) && success (brent current_prices) then
    Some (py_sub (price (brent current_prices)) (price (wti current_prices)))
  else None.

(** *** main: the rows of the history table (lines 323 to 335) *)

Definition digit (n : Z) : ascii := ascii_of_nat (48 + Z.to_nat n).

(** [%H], [%M] and [%S] are zero padded to two digits. *)
Definition two_digits (n : Z) : string :=
  String (digit (n / 10)) (String (digit (n mod 10)) EmptyString).

(** [t.strftime('%H:%M:%S')] *)
Definition strftime_HMS (t : datetime) : string :=
  (two_digits ((t / 3600000000) mod 24) ++ ":" ++
   two_digits ((t / 60000000) mod 60) ++ ":" ++
   two_digits ((t / 1000000) mod 60))%string.

(** A row dict: ['Timestamp'] is always there, the two prices only when set. *)
Record row : Type :=
  { Timestamp : string; WTI_Price : option string; Brent_Price : option string }.

(** The body of the loop for index [i]. *)
Definition row_at (wti_h brent_h : list entry) (i : nat) : result row :=
  r1 <- match nth_error wti_h i with
        | Some e =>
            p <- format_price (e_price e) ;;
            Ok {| Timestamp := strftime_HMS (e_timestamp e);
                  WTI_Price := Some p; Brent_Price := None |}
        | None =>
            Ok {| Timestamp := EmptyString; WTI_Price := None; Brent_Price := None |}
        end ;;
  match nth_error brent_h i with
  | Some e =>
      p <- format_price (e_price e) ;;
      Ok {| Timestamp := if string_is_empty (Timestamp r1)
                         then strftime_HMS (e_timestamp e) else Timestamp r1;
            WTI_Price := WTI_Price r1; Brent_Price := Some p |}
  | None => Ok r1
  end.

Fixpoint for_each {A B : Type} (f : A -> result B) (l : list A) : result (list B) :=
  match l with
  | [] => Ok []
  | x :: rest =>
      y <- f x ;;
      ys <- for_each f rest ;;
      Ok (y :: ys)
  end.

(** [history_data] after the loop; the spec calls it as_rows. *)
Definition history_data (h : history) : result (list row) :=
  let max_length := Nat.max (List.length (h_wti h)) (List.length (h_brent h)) in
  for_each (row_at (h_wti h) (h_brent h)) (seq 0 max_length).

End Display.

End App.

(** ** src/ship_flows_mock.py *)

Module ShipFlows.

Local Open Scope float_scope.

(** A row of the ports table: columns [name], [lat], [lon]. *)
Record port : Type := { port_name : string; port_lat : float; port_lon : float }.

(** A row of the ships table: columns [name], [from], [to], [progress],
    [volume]. *)
Record ship : Type :=
  { ship_name : string; ship_from : string; ship_to : string;
    ship_progress : float; ship_volume : float }.

Inductive st_warning : Type :=
| PortNotFound (name : string).

(** [get_port_df]: the first row whose name matches, [None] and a warning
    when the selection is empty. *)
Definition get_port_df (df : list port) (name : string)
  : option port * list st_warning :=
  match filter (fun r => String.eqb (port_name r) name) df with
  | [] => (None, [PortNotFound name])
  | r :: _ => (Some r, [])
  end.

(** [Series.max()]: the largest value, NaN entries skipped, NaN when nothing
    is left. *)
Definition max_skipna (acc : option float) (x : float) : option float :=
  if PrimFloat.is_nan x then acc
  else match acc with
       | None => Some x
       | Some m => Some (if m <? x then x else m)
       end.

Definition series_max (l : list float) : float :=
  match fold_left max_skipna l None with
  | Some m => m
  | None => PrimFloat.nan
  end.

(** Lines 57 and 58: the interpolated [(lat, lon)]. *)
Definition position (start end_ : port) (progress : float) : float * float :=
  (port_lat start + (port_lat end_ - port_lat start) * progress,
   port_lon start + (port_lon end_ - port_lon start) * progress).

(** A dict appended to [positions]. *)
Record position_row : Type :=
  { pos_name : string; pos_lat : float; pos_lon : float;
    pos_from : string; pos_to : string; pos_volume : float; pos_width : float }.

(** A dict appended to [flows]. *)
Record flow_row : Type :=
  { from_lat : float; from_lon : float; to_lat : float; to_lon : float;
    flow_volume : float; flow_width : float; flow_name : string }.

Definition width_of (max_vol : float) (s : ship) : float :=
  (ship_volume s / max_vol) * 50.

Definition position_of (max_vol : float) (start end_ : port) (s : ship)
  : position_row :=
  let '(lat, lon) := position start end_ (ship_progress s) in
  {| pos_name := ship_name s; pos_lat := lat; pos_lon := lon;
     pos_from := ship_from s; pos_to := ship_to s;
     pos_volume := ship_volume s; pos_width := width_of max_vol s |}.

Definition flow_of (max_vol : float) (start end_ : port) (s : ship) : flow_row :=
  {| from_lat := port_lat start; from_lon := port_lon start;
     to_lat := port_lat end_; to_lon := port_lon end_;
     flow_volume := ship_volume s; flow_width := width_of max_vol s;
     flow_name := ship_name s |}.

(** The lists the loop builds, and the warnings shown on the way. *)
Record tables : Type :=
  { positions : list position_row; flows : list flow_row;
    warnings : list st_warning }.

(** The body of the loop over [ships.iterrows()]. *)
Definition loop_body (ports : list port) (max_vol : float) (acc : tables) (s : ship)
  : tables :=
  let '(start, w1) := get_port_df ports (ship_from s) in
  let '(end_, w2) := get_port_df ports (ship_to s) in
  match start, end_ with
  | Some p, Some q =>
      {| positions := (positions acc ++ [position_of max_vol p q s])%list;
         flows := (flows acc ++ [flow_of max_vol p q s])%list;
         warnings := (warnings acc ++ w1 ++ w2)%list |}
  | _, _ =>
      {| positions := positions acc; flows := flows acc;
         warnings := (warnings acc ++ w1 ++ w2)%list |}
  end.

(** The loop, from the empty lists. *)
Definition run_loop (ports : list port) (max_vol : float) (ships : list ship)
  : tables :=
  fold_left (loop_body ports max_vol) ships
    {| positions := []; flows := []; warnings := [] |}.

Definition compute_positions (ports : list port) (ships : list ship) : tables :=
  let max_vol := series_max (map ship_volume ships) in
  run_loop ports max_vol ships.

(** The fallback tables of [load_ports] and [load_ships]. *)
Definition mock_ports : list port :=
  [ {| port_name := "Houston"; port_lat := 29.7522; port_lon := -95.3584 |};
    {| port_name := "Rotterdam"; port_lat := 51.9244; port_lon := 4.4777 |};
    {| port_name := "Singapore"; port_lat := 1.3521; port_lon := 103.8198 |};
    {| port_name := "Ras Tanura"; port_lat := 26.6401; port_lon := 50.1583 |};
    {| port_name := "Fujairah"; port_lat := 25.1288; port_lon := 56.3265 |} ].

Definition mock_ships : list ship :=
  [ {| ship_name := "Crude Titan"; ship_from := "Houston"; ship_to := "Rotterdam";
       ship_progress := 0.3; ship_volume := 2.1 |};
    {| ship_name := "Sea Giant"; ship_from := "Ras Tanura"; ship_to := "Singapore";
       ship_progress := 0.7; ship_volume := 1.8 |};
    {| ship_name := "Ocean Star"; ship_from := "Fujairah"; ship_to := "Rotterdam";
       ship_progress := 0.5; ship_volume := 1.2 |};
    {| ship_name := "Black Pearl"; ship_from := "Houston"; ship_to := "Singapore";
       ship_progress := 0.6; ship_volume := 2.5 |} ].

End ShipFlows.

(** ** Vocabulary of the properties *)

Import App.

(** What [fetch_oil_prices] returns in a cycle. *)
Definition fetched (c : cycle) : option prices :=
  let '(w, b, _) := c in fst (fetch_oil_prices w b).

(** The clock of a cycle. *)
Definition clock (c : cycle) : datetime := snd c.

(** A cycle whose fetch returned a dict. *)
Definition successful (c : cycle) : bool :=
  match fetched c with
  | Some _ => true
  | None => false
  end.

(** The sample a cycle appends for one series: none when the series is not
    marked successful. *)
Definition sample_of (q : quote) (t : datetime) : list entry :=
  if success q then [ {| e_price := price q; e_timestamp := t |} ] else [].

(** The samples a sequence of cycles appends for the series [side] ([wti] or
    [brent]), in the order of the cycles. *)
Definition samples (side : prices -> quote) (cs : list cycle) : list entry :=
  flat_map (fun c => match fetched c with
                     | Some cp => sample_of (side cp) (clock c)
                     | None => []
                     end) cs.

(** A buffer within the cap. *)
Definition capped (l : list entry) : Prop := (List.length l <= MAX_HISTORY)%nat.

Definition capped_history (h : history) : Prop :=
  capped (h_wti h) /\ capped (h_brent h).

(** Entries in non-decreasing order of their timestamps. *)
Definition nondecreasing (l : list entry) : Prop :=
  Sorted (fun a b => e_timestamp a <= e_timestamp b) l.

(** The timestamp of the newest entry of a buffer. *)
Fixpoint last_time (l : list entry) : option datetime :=
  match l with
  | [] => None
  | e :: rest =>
      match rest with
      | [] => Some (e_timestamp e)
      | _ :: _ => last_time rest
      end
  end.

(** The clock is not earlier than the newest entry. *)
Definition not_earlier (l : list entry) (now : datetime) : Prop :=
  match last_time l with
  | Some t => t <= now
  | None => True
  end.

(** The invariant of a buffer and of the history. *)
Definition buffer_ok (l : list entry) : Prop := capped l /\ nondecreasing l.

Definition history_ok (h : history) : Prop :=
  buffer_ok (h_wti h) /\ buffer_ok (h_brent h).

(** A JSON body with one rate, and a response that carries it. *)
Definition rates_body (symbol : string) (rate : pyval) (ts : Z) : pyval :=
  PDict [("data"%string,
          PDict [("rates"%string, PDict [(symbol, rate)]);
                 ("timestamp"%string, PInt ts)])].

Definition ok_response (symbol : string) (rate : pyval) (ts : Z) : http :=
  Responds {| status_code := 200; json := Some (rates_body symbol rate ts) |}.

(** Cycle [i] of a session that polls once a minute. *)
Definition demo_cycle (i : nat) : cycle :=
  (ok_response "WTI" (PFloat 75) (Z.of_nat i),
   ok_response "BRENT" (PFloat 78.5) (Z.of_nat i),
   60000000 * Z.of_nat i).

Definition demo_cycles : list cycle := map demo_cycle (seq 0 101).

(** A status in the 2xx range. *)
Definition is_2xx (r : response) : bool :=
  (200 <=? status_code r) && (status_code r <? 300).

(** The body carries [data.rates.<symbol>]. *)
Definition has_rate (data : pyval) (symbol : string) : bool :=
  match data with
  | PDict top =>
      match dict_lookup "data" top with
      | Some (PDict d) =>
          match dict_lookup "rates" d with
          | Some (PDict r) =>
              match dict_lookup symbol r with
              | Some _ => true
              | None => false
              end
          | _ => false
          end
      | _ => false
      end
  | _ => false
  end.

Definition absent_or_dict (o : option pyval) : bool :=
  match o with
  | None => true
  | Some (PDict _) => true
  | Some _ => false
  end.

(** The body is an object whose [data] and [data.rates], where present, are
    objects: the shape on which the chained [.get] calls do not raise. *)
Definition well_shaped (data : pyval) : bool :=
  match data with
  | PDict top =>
      match dict_lookup "data" top with
      | None => true
      | Some (PDict d) => absent_or_dict (dict_lookup "rates" d)
      | Some _ => false
      end
  | _ => false
  end.

(** The series [side] of a fetch result is there with price 0 and marked
    failed. *)
Definition failed_but_present (res : option prices * list st_error)
  (side : prices -> quote) : Prop :=
  exists cp, fst res = Some cp /\ price (side cp) = PInt 0 /\ success (side cp) = false.

(** A response without a body worth reading. *)
Definition status_response (status : Z) : response :=
  {| status_code := status; json := None |}.

(** A formatter for the prices 0 to 99, standing for [format(p, '.2f')]
    on them. *)
Definition format_2f_small (p : pyval) : result string :=
  match p with
  | PInt z =>
      if (0 <=? z) && (z <? 100) then Ok (two_digits z ++ ".00")%string
      else Raise OverflowError
  | _ => Raise TypeError
  end.

Import ShipFlows.

(** Both ports of a ship are in the ports table. *)
Definition has_ports (ports : list port) (s : ship) : bool :=
  match fst (get_port_df ports (ship_from s)), fst (get_port_df ports (ship_to s)) with
  | Some _, Some _ => true
  | _, _ => false
  end.

(** A position row and a flow row without the normalised width. *)
Definition position_less_width (r : position_row)
  : string * float * float * string * string * float :=
  (pos_name r, pos_lat r, pos_lon r, pos_from r, pos_to r, pos_volume r).

Definition flow_less_width (r : flow_row)
  : float * float * float * float * float * string :=
  (from_lat r, from_lon r, to_lat r, to_lon r, flow_volume r, flow_name r).

(** A point with no name, as the spec writes [{lat, lon}]. *)
Definition point (lat lon : float) : port :=
  {| port_name := EmptyString; port_lat := lat; port_lon := lon |}.

(** Two rows of the fallback ports table. *)
Definition fujairah : port :=
  {| port_name := "Fujairah"; port_lat := 25.1288; port_lon := 56.3265 |}.

Definition rotterdam : port :=
  {| port_name := "Rotterdam"; port_lat := 51.9244; port_lon := 4.4777 |}.

(** The first ship of the fallback table, and a ship whose origin is not a
    port of the table. *)
Definition crude_titan : ship :=
  {| ship_name := "Crude Titan"; ship_from := "Houston"; ship_to := "Rotterdam";
     ship_progress := 0.3; ship_volume := 2.1 |}.

Definition stray_ship : ship :=
  {| ship_name := "Stray"; ship_from := "Atlantis"; ship_to := "Rotterdam";
     ship_progress := 0.5; ship_volume := 4.2 |}.

(** The clocks of the cycles never go back, from [t0] on. *)
Fixpoint clocks_from (t0 : datetime) (cs : list cycle) : Prop :=
  match cs with
  | [] => True
  | c :: rest => t0 <= clock c /\ clocks_from (clock c) rest
  end.

(** The rate and the timestamp a body carries, when it has them. *)
Definition body_rate (data : pyval) (symbol : string) : option pyval :=
  match data with
  | PDict top =>
      match dict_lookup "data" top with
      | Some (PDict d) =>
          match dict_lookup "rates" d with
          | Some (PDict r) => dict_lookup symbol r
          | _ => None
          end
      | _ => None
      end
  | _ => None
  end.

Definition body_timestamp (data : pyval) : option pyval :=
  match data with
  | PDict top =>
      match dict_lookup "data" top with
      | Some (PDict d) => dict_lookup "timestamp" d
      | _ => None
      end
  | _ => None
  end.

(** [x if x is not None else d] for a looked-up value. *)
Definition or_default (o : option pyval) (d : pyval) : pyval :=
  match o with
  | Some v => v
  | None => d
  end.

(** The number of cycles whose fetch returned a dict. *)
Definition successes (cs : list cycle) : nat :=
  List.length (filter successful cs).

(** The warnings of one turn of the loop of compute_positions. *)
Definition ship_warnings (ports : list port) (s : ship) : list st_warning :=
  (snd (get_port_df ports (ship_from s)) ++ snd (get_port_df ports (ship_to s)))%list.

(** The pair of rows one turn of the loop emits, if any. *)
Definition ship_rows (ports : list port) (max_vol : float) (s : ship)
  : list (position_row * flow_row) :=
  match fst (get_port_df ports (ship_from s)), fst (get_port_df ports (ship_to s)) with
  | Some p, Some q => [(position_of max_vol p q s, flow_of max_vol p q s)]
  | _, _ => []
  end.

(** A request that got a response whose status is outside 2xx. *)
Definition non_2xx (o : http) : bool :=
  match o with
  | Responds r => negb (is_2xx r)
  | Fails => false
  end.

(** The float [f] has the integer value [z], exactly. *)
Definition float_is_int (f : float) (z : Z) : Prop :=
  match Prim2SF f with
  | S754_zero _ => z = 0
  | S754_finite s m e => e <= 0 /\ cond_Zopp s (Zpos m) = z * 2 ^ (- e)
  | _ => False
  end.

(** Python's [format(v, '.2f')], the builtin behind [format_price]: a float
    is rounded to two decimals, to nearest on its exact value with ties to
    even; an int or a bool goes through [float]; a str raises ValueError,
    and None, a list or a dict TypeError. *)
Definition decimal (n : Z) : string :=
  NilZero.string_of_uint (N.to_uint (Z.to_N n)).

Definition round_half_even (num den : Z) : Z :=
  let q := num / den in
  match 2 * (num mod den) ?= den with
  | Lt => q
  | Gt => q + 1
  | Eq => if Z.even q then q else q + 1
  end.

(** The value [m * 2^e] in hundredths, rounded. *)
Definition hundredths (m : positive) (e : Z) : Z :=
  if 0 <=? e then Zpos m * 2 ^ e * 100
  else round_half_even (Zpos m * 100) (2 ^ (- e)).

Definition sign_prefix (s : bool) : string :=
  if s then "-"%string else EmptyString.

Definition format_float_2f (f : float) : string :=
  match Prim2SF f with
  | S754_nan => "nan"%string
  | S754_infinity s => (sign_prefix s ++ "inf")%string
  | S754_zero s => (sign_prefix s ++ "0.00")%string
  | S754_finite s m e =>
      let n := hundredths m e in
      (sign_prefix s ++ decimal (n / 100) ++ "." ++ two_digits (n mod 100))%string
  end.

Definition format_spec_2f (v : pyval) : result string :=
  match v with
  | PFloat f => Ok (format_float_2f f)
  | PInt z => f <- float_of_int z ;; Ok (format_float_2f f)
  | PBool b => f <- float_of_int (Z.b2z b) ;; Ok (format_float_2f f)
  | PStr _ => Raise ValueError
  | PNone | PList _ | PDict _ => Raise TypeError
  end.

(** A cycle whose WTI rate arrives as a JSON string. *)
Definition string_rate_cycle : cycle :=
  (ok_response "WTI" (PStr "75.10") 0, ok_response "BRENT" (PFloat 78.5) 0, 0).

(** ** src/app.py: the colour of a change, the chart, what is shown *)

Module AppView.

(** [change > 0] and [change < 0]: on an int, a bool or a float; any other
    value raises TypeError. *)
Definition py_gt_zero (v : pyval) : result bool :=
  match as_num v with
  | Some (NInt z) => Ok (0 <? z)
  | Some (NFloat f) => Ok (0 <? f)%float
  | None => Raise TypeError
  end.

Definition py_lt_zero (v : pyval) : result bool :=
  match as_num v with
  | Some (NInt z) => Ok (z <? 0)
  | Some (NFloat f) => Ok (f <? 0)%float
  | None => Raise TypeError
  end.

Definition get_price_change_color (change : pyval) : result string :=
  gt <- py_gt_zero change ;;
  if gt then Ok "positive"%string
  else
    lt <- py_lt_zero change ;;
    if lt then Ok "negative"%string else Ok "neutral"%string.

(** A [go.Scatter] of the chart: its name, the subplot row it goes to, its
    x and its y values. *)
Record trace : Type :=
  { trace_name : string; trace_row : Z;
    trace_x : list datetime; trace_y : list pyval }.

Definition list_is_empty {A : Type} (l : list A) : bool :=
  match l with
  | [] => true
  | _ :: _ => false
  end.

(** [create_price_chart]: the traces added to the figure, in order. The
    argument is the history of the session, so both keys are in it. *)
Definition create_price_chart (price_history : history) : list trace :=
  (if list_is_empty (h_wti price_history) then []
   else [ {| trace_name := "WTI"; trace_row := 1;
             trace_x := map e_timestamp (h_wti price_history);
             trace_y := map e_price (h_wti price_history) |} ]) ++
  (if list_is_empty (h_brent price_history) then []
   else [ {| trace_name := "Brent"; trace_row := 2;
             trace_x := map e_timestamp (h_brent price_history);
             trace_y := map e_price (h_brent price_history) |} ]).

(** Line 311: the chart is drawn. *)
Definition chart_shown (h : history) : bool :=
  (1 <? List.length (h_wti h))%nat || (1 <? List.length (h_brent h))%nat.

(** Line 318: the table is built. *)
Definition table_shown (h : history) : bool :=
  negb (list_is_empty (h_wti h)) || negb (list_is_empty (h_brent h)).

End AppView.

(** ** src/test_dashboard.py *)

Module TestDashboard.

(** What the page shows, in order. *)
Inductive widget : Type :=
| KeyWarning                           (* st.warning and st.info of lines 21, 22 *)
| Metric (label value : string)
| Caption (time : string)
| ApiStatusError (status : Z)          (* st.error of line 60 *)
| ExceptionError (e : exn)             (* st.error of line 63 *)
| FooterInfo.

(** [bool(v)] *)
Definition truthy (v : pyval) : bool :=
  match v with
  | PNone => false
  | PBool b => b
  | PInt z => negb (z =? 0)
  | PFloat f => negb (f =? 0)%float
  | PStr s => negb (string_is_empty s)
  | PList l => negb (AppView.list_is_empty l)
  | PDict items => negb (AppView.list_is_empty items)
  end.

Section Page.

Variable format_2f : pyval -> result string.

(** [data.get('data', {}).get('rates', {})] *)
Definition rates_of (data : pyval) : result pyval :=
  d <- py_get data "data" (PDict []) ;;
  py_get d "rates" (PDict []).

(** [rates.get(symbol, 0)] and the value string of its metric. *)
Definition price_metric (rates : pyval) (symbol : string)
  : result (pyval * string) :=
  p <- py_get rates symbol (PInt 0) ;;
  s <- format_price format_2f p ;;
  Ok (p, s).

(** Lines 52 to 57, once both price metrics are out. *)
Definition spread_and_caption (wti_price brent_price : pyval) (now : datetime)
  : list widget :=
  if truthy wti_price && truthy brent_price then
    match (d <- py_sub brent_price wti_price ;; format_price format_2f d) with
    | Ok s => [Metric "Brent-WTI Spread" s; Caption (strftime_HMS now)]
    | Raise e => [ExceptionError e]
    end
  else [Caption (strftime_HMS now)].

(** Lines 25 to 63: the widgets of the [try], the one of the handler last
    when an exception leaves it. *)
Definition test_api (o : http) (now : datetime) : list widget :=
  match requests_get o with
  | Raise e => [ExceptionError e]
  | Ok response =>
      if status_code response =? 200 then
        match (data <- response_json response ;; rates_of data) with
        | Raise e => [ExceptionError e]
        | Ok rates =>
            match price_metric rates "WTI" with
            | Raise e => [ExceptionError e]
            | Ok (wti_price, ws) =>
                Metric "WTI Crude Oil" ws ::
                match price_metric rates "BRENT" with
                | Raise e => [ExceptionError e]
                | Ok (brent_price, bs) =>
                    Metric "Brent Crude Oil" bs ::
                    spread_and_caption wti_price brent_price now
                end
            end
        end
      else [ApiStatusError (status_code response)]
  end.

(** The whole page. *)
Definition test_page (api_key : string) (o : http) (now : datetime)
  : list widget :=
  (if string_is_empty api_key then [KeyWarning] else test_api o now)
  ++ [FooterInfo].

End Page.

End TestDashboard.

(** ** src/ship_flows_mock.py: the filters of the page *)

Module ShipView.

Local Open Scope float_scope.

(** A column read off a DataFrame built from a list of dicts: an empty list
    gives a frame with no column, and the lookup raises KeyError. *)
Inductive lookup (A : Type) : Type :=
| Found (a : A)
| KeyError (column : string).
Arguments Found {A} a.
Arguments KeyError {A} column.

(** Lines 104 to 109. *)
Definition filtered_ships (ships_pos_df : list position_row)
  (vol_range : float * float) (selected_port : string)
  : lookup (list position_row) :=
  match ships_pos_df with
  | [] => KeyError "volume"
  | _ :: _ =>
      let in_range :=
        filter (fun r => (fst vol_range <=? pos_volume r)
                         && (pos_volume r <=? snd vol_range)) ships_pos_df in
      Found (if String.eqb selected_port "All" then in_range
             else filter (fun r => String.eqb (pos_from r) selected_port) in_range)
  end.

(** Line 110. *)
Definition filtered_flows (flows_df : list flow_row) (ships : list position_row)
  : lookup (list flow_row) :=
  match flows_df with
  | [] => KeyError "name"
  | _ :: _ =>
      Found (filter (fun f => existsb (String.eqb (flow_name f))
                                (map pos_name ships)) flows_df)
  end.

(** Lines 80 and 104 to 110: the two filtered tables of the page. *)
Definition page_tables (ports : list port) (ships : list ship)
  (vol_range : float * float) (selected_port : string)
  : lookup (list position_row * list flow_row) :=
  let t := compute_positions ports ships in
  match filtered_ships (positions t) vol_range selected_port with
  | KeyError c => KeyError c
  | Found fs =>
      match filtered_flows (flows t) fs with
      | KeyError c => KeyError c
      | Found ff => Found (fs, ff)
      end
  end.

End ShipView.

(** ** The capped buffer *)

Section Buffer.

Context {A : Type}.
Implicit Types (l : list A) (n : nat).

Lemma keep_last_is_last_n l : keep_last l = last_n MAX_HISTORY l.
Proof.
  unfold keep_last, last_n.
  destruct (Nat.ltb_spec MAX_HISTORY (List.length l)) as [Hlt | Hle]; [reflexivity|].
  replace (List.length l - MAX_HISTORY)%nat with 0%nat by lia.
  reflexivity.
Qed.

Lemma last_n_short n l : (List.length l <= n)%nat -> last_n n l = l.
Proof.
  intros Hle. unfold last_n.
  replace (List.length l - n)%nat with 0%nat by lia.
  reflexivity.
Qed.

Lemma length_last_n n l : List.length (last_n n l) = Nat.min n (List.length l).
Proof.
  unfold last_n. rewrite length_skipn. lia.
Qed.

Lemma last_n_absorb n l l' : last_n n (last_n n l ++ l') = last_n n (l ++ l').
Proof.
  destruct (Nat.le_gt_cases (List.length l) n) as [Hle | Hgt].
  - rewrite (last_n_short n l Hle). reflexivity.
  - unfold last_n at 1 3.
    rewrite !length_app, length_last_n.
    unfold last_n.
    set (k := (List.length l - n)%nat).
    assert (Hsplit : l ++ l' = firstn k l ++ (skipn k l ++ l'))
      by (rewrite app_assoc, firstn_skipn; reflexivity).
    rewrite Hsplit, (skipn_app _ (firstn k l)).
    assert (Hk : List.length (firstn k l) = k)
      by (rewrite length_firstn; subst k; lia).
    rewrite Hk, (skipn_all2 (firstn k l)) by lia.
    simpl. f_equal. subst k. lia.
Qed.

Lemma last_n_of_long_suffix n l l' :
  (n <= List.length l')%nat -> last_n n (l ++ l') = last_n n l'.
Proof.
  intros Hle. unfold last_n.
  rewrite length_app, skipn_app.
  rewrite skipn_all2 by lia.
  simpl. f_equal. lia.
Qed.

Lemma keep_last_capped l : (List.length (keep_last l) <= MAX_HISTORY)%nat.
Proof.
  rewrite keep_last_is_last_n, length_last_n. lia.
Qed.

End Buffer.

(** ** The fetch *)

Ltac step_fetch :=
  match goal with
  | |- context [Py.bind ?m _] =>
      let E := fresh "E" in destruct m eqn:E; simpl
  | |- context [if ?c then _ else _] =>
      let E := fresh "E" in destruct c eqn:E; simpl
  end.

Lemma fetch_oil_prices_marks_success w b cp :
  fst (fetch_oil_prices w b) = Some cp ->
  success (wti cp) = true /\ success (brent cp) = true.
Proof.
  unfold fetch_oil_prices, fetch_try.
  repeat step_fetch; intros H; try discriminate H.
  injection H as <-. split; reflexivity.
Qed.

Lemma fetched_marks_success c cp :
  fetched c = Some cp -> success (wti cp) = true /\ success (brent cp) = true.
Proof.
  destruct c as [[w b] t]. apply fetch_oil_prices_marks_success.
Qed.

(** ** Runs of the dashboard *)

Lemma append_if_success_sample l q t :
  append_if_success l q t = l ++ sample_of q t.
Proof.
  unfold append_if_success, sample_of.
  destruct (success q); [reflexivity | now rewrite app_nil_r].
Qed.

Lemma record_capped h cp t :
  capped_history h -> capped_history (record h cp t).
Proof.
  intros Hc. destruct cp as [cp|]; [|exact Hc].
  split; apply keep_last_capped.
Qed.

Lemma main_state_started api_key ss cp t :
  string_is_empty api_key = false ->
  main_state api_key ss cp t = Some (record (current_history ss) cp t).
Proof.
  intros Hk. unfold main_state. rewrite Hk. reflexivity.
Qed.

Lemma run_from_history api_key h cs :
  string_is_empty api_key = false ->
  capped_history h ->
  run api_key (Some h) cs =
    Some {| h_wti := last_n MAX_HISTORY (h_wti h ++ samples wti cs);
            h_brent := last_n MAX_HISTORY (h_brent h ++ samples brent cs) |}.
Proof.
  intros Hk. revert h.
  induction cs as [| c cs IH]; intros h Hc.
  - simpl. rewrite !app_nil_r.
    destruct Hc as [Hw Hb].
    rewrite (last_n_short _ _ Hw), (last_n_short _ _ Hb).
    destruct h; reflexivity.
  - unfold run. simpl fold_left.
    change (fold_left (run_cycle api_key) cs ?s) with (run api_key s cs).
    assert (Hstep : run_cycle api_key (Some h) c
                    = Some (record h (fetched c) (clock c))).
    { destruct c as [[w b] t]. unfold run_cycle, main.
      rewrite main_state_started by exact Hk. reflexivity. }
    rewrite Hstep, IH by (apply record_capped; exact Hc).
    unfold samples. simpl flat_map. fold (samples wti cs) (samples brent cs).
    destruct (fetched c) as [cp|]; simpl record.
    + unfold update_history; simpl h_wti; simpl h_brent.
      rewrite !append_if_success_sample, !keep_last_is_last_n, !last_n_absorb.
      rewrite <- !app_assoc. reflexivity.
    + reflexivity.
Qed.

Lemma run_starts api_key ss c cs :
  string_is_empty api_key = false ->
  run api_key ss (c :: cs) = run api_key (Some (current_history ss)) (c :: cs).
Proof.
  intros Hk. unfold run. simpl. f_equal.
  destruct c as [[w b] t]. unfold run_cycle, main.
  rewrite !main_state_started by exact Hk. reflexivity.
Qed.

Lemma run_nonempty api_key ss cs :
  string_is_empty api_key = false ->
  capped_history (current_history ss) ->
  cs <> [] ->
  run api_key ss cs =
    Some {| h_wti := last_n MAX_HISTORY
                       (h_wti (current_history ss) ++ samples wti cs);
            h_brent := last_n MAX_HISTORY
                         (h_brent (current_history ss) ++ samples brent cs) |}.
Proof.
  intros Hk Hc Hne. destruct cs as [| c cs]; [contradiction|].
  rewrite run_starts, run_from_history by assumption. reflexivity.
Qed.

Lemma samples_of_successful side cs :
  (side = wti \/ side = brent) ->
  forallb successful cs = true ->
  List.length (samples side cs) = List.length cs.
Proof.
  intros Hside. induction cs as [| c cs IH]; [reflexivity|].
  simpl. intros H. apply andb_prop in H as [Hc Hcs].
  unfold samples. simpl flat_map. fold (samples side cs).
  rewrite length_app, IH by exact Hcs.
  unfold successful in Hc.
  destruct (fetched c) as [cp|] eqn:E; [|discriminate Hc].
  apply fetched_marks_success in E as [Hw Hb].
  unfold sample_of. destruct Hside as [-> | ->]; [rewrite Hw | rewrite Hb]; reflexivity.
Qed.

(** C1. After more than MAX_HISTORY successful cycles, each buffer holds
    exactly MAX_HISTORY entries, and they are the last MAX_HISTORY samples
    appended, in the order of the cycles. *)
Theorem window_keeps_last_samples :
  forall (api_key : string) (ss : session_state) (cs : list cycle),
    string_is_empty api_key = false ->
    capped_history (current_history ss) ->
    forallb successful cs = true ->
    (MAX_HISTORY < List.length cs)%nat ->
    exists h,
      run api_key ss cs = Some h /\
      List.length (samples wti cs) = List.length cs /\
      List.length (samples brent cs) = List.length cs /\
      h_wti h = skipn (List.length cs - MAX_HISTORY) (samples wti cs) /\
      h_brent h = skipn (List.length cs - MAX_HISTORY) (samples brent cs) /\
      List.length (h_wti h) = MAX_HISTORY /\
      List.length (h_brent h) = MAX_HISTORY.
Proof.
  intros api_key ss cs Hk Hc Hok Hlen.
  pose proof (samples_of_successful wti cs (or_introl eq_refl) Hok) as Lw.
  pose proof (samples_of_successful brent cs (or_intror eq_refl) Hok) as Lb.
  assert (Hne : cs <> []) by (intros ->; simpl in Hlen; lia).
  rewrite run_nonempty by assumption.
  eexists. split; [reflexivity|]. cbn [h_wti h_brent].
  rewrite !last_n_of_long_suffix by lia.
  unfold last_n. rewrite Lw, Lb, !length_skipn, Lw, Lb.
  repeat split; lia.
Qed.

Lemma window_keeps_last_samples_witness :
  exists h,
    run "key" None demo_cycles = Some h /\
    List.length (samples wti demo_cycles) = List.length demo_cycles /\
    List.length (samples brent demo_cycles) = List.length demo_cycles /\
    h_wti h = skipn (List.length demo_cycles - MAX_HISTORY) (samples wti demo_cycles) /\
    h_brent h = skipn (List.length demo_cycles - MAX_HISTORY) (samples brent demo_cycles) /\
    List.length (h_wti h) = MAX_HISTORY /\
    List.length (h_brent h) = MAX_HISTORY.
Proof.
  apply (window_keeps_last_samples "key" None demo_cycles).
  - reflexivity.
  - split; vm_compute; lia.
  - vm_compute. reflexivity.
  - vm_compute. lia.
Defined.

(** ** The invariant of the history *)

Section Ordering.

Implicit Types (l : list entry) (e : entry).

Lemma nondecreasing_skipn k l : nondecreasing l -> nondecreasing (skipn k l).
Proof.
  revert l. induction k as [| k IH]; intros l Hs; [exact Hs|].
  destruct l as [| e l]; [exact Hs|].
  simpl. apply IH. apply Sorted_inv in Hs. exact (proj1 Hs).
Qed.

Lemma nondecreasing_snoc l e :
  nondecreasing l -> not_earlier l (e_timestamp e) -> nondecreasing (l ++ [e]).
Proof.
  unfold nondecreasing, not_earlier.
  induction l as [| a l IH]; intros Hs Hlast.
  - repeat constructor.
  - apply Sorted_inv in Hs as [Hs Hhd].
    destruct l as [| a' l].
    + simpl in *. repeat constructor. exact Hlast.
    + simpl app. constructor.
      * apply IH; assumption.
      * constructor. inversion Hhd; assumption.
Qed.

Lemma nondecreasing_last_n n l : nondecreasing l -> nondecreasing (last_n n l).
Proof.
  apply nondecreasing_skipn.
Qed.

End Ordering.

Lemma buffer_ok_after l q now :
  buffer_ok l -> not_earlier l now ->
  buffer_ok (keep_last (append_if_success l q now)).
Proof.
  intros [Hc Hs] Hlast. split.
  - apply keep_last_capped.
  - rewrite keep_last_is_last_n. apply nondecreasing_last_n.
    unfold append_if_success. destruct (success q); [|exact Hs].
    apply nondecreasing_snoc; assumption.
Qed.

(** C2. [history_ok] (each buffer within MAX_HISTORY and in non-decreasing
    order of time) is preserved by every record step whose clock is not
    earlier than the newest stored entries; and a buffer changes only by the
    append of the sample of a fetch that returned a dict marking that series
    successful. *)
Theorem record_preserves_history_ok :
  forall (h : history) (current_prices : option prices) (now : datetime),
    history_ok h ->
    not_earlier (h_wti h) now ->
    not_earlier (h_brent h) now ->
    let h' := record h current_prices now in
    history_ok h' /\
    match current_prices with
    | None => h' = h
    | Some cp =>
        h_wti h' =
          (if success (wti cp)
           then last_n MAX_HISTORY
                  (h_wti h ++ [ {| e_price := price (wti cp); e_timestamp := now |} ])
           else h_wti h) /\
        h_brent h' =
          (if success (brent cp)
           then last_n MAX_HISTORY
                  (h_brent h ++ [ {| e_price := price (brent cp); e_timestamp := now |} ])
           else h_brent h)
    end.
Proof.
  intros h cp now [Hw Hb] Lw Lb h'. subst h'.
  destruct cp as [cp|]; simpl record.
  - split.
    + split; apply buffer_ok_after; assumption.
    + unfold update_history, append_if_success; cbn [h_wti h_brent].
      rewrite !keep_last_is_last_n.
      split.
      * destruct (success (wti cp)); [reflexivity|].
        apply last_n_short, Hw.
      * destruct (success (brent cp)); [reflexivity|].
        apply last_n_short, Hb.
  - split; [split; assumption | reflexivity].
Qed.

(** C4. From a history within the cap, a series that failed or is absent
    from the fetch result keeps its buffer as it is, whatever happens to the
    other series; a buffer changes only when its own series succeeded, by
    the append of one sample and the eviction from the front down to
    MAX_HISTORY entries. *)
Theorem failed_series_keeps_buffer :
  forall (h : history) (current_prices : option prices) (now : datetime),
    capped_history h ->
    let h' := record h current_prices now in
    match current_prices with
    | None => h_wti h' = h_wti h /\ h_brent h' = h_brent h
    | Some cp =>
        (success (wti cp) = false -> h_wti h' = h_wti h) /\
        (success (brent cp) = false -> h_brent h' = h_brent h) /\
        (h_wti h' = h_wti h \/
         success (wti cp) = true /\
         exists evicted,
           (List.length evicted <= 1)%nat /\
           evicted ++ h_wti h' =
             h_wti h ++ [ {| e_price := price (wti cp); e_timestamp := now |} ]) /\
        (h_brent h' = h_brent h \/
         success (brent cp) = true /\
         exists evicted,
           (List.length evicted <= 1)%nat /\
           evicted ++ h_brent h' =
             h_brent h ++ [ {| e_price := price (brent cp); e_timestamp := now |} ])
    end.
Proof.
  intros h cp now [Hw Hb] h'. subst h'.
  destruct cp as [cp|]; simpl record; [|split; reflexivity].
  unfold update_history, append_if_success; cbn [h_wti h_brent].
  rewrite !keep_last_is_last_n.
  assert (Hkeep : forall l e, capped l ->
            exists evicted, (List.length evicted <= 1)%nat /\
              evicted ++ last_n MAX_HISTORY (l ++ [e]) = l ++ [e]).
  { intros l e Hl. unfold last_n.
    exists (firstn (List.length (l ++ [e]) - MAX_HISTORY) (l ++ [e])).
    split; [|apply firstn_skipn].
    rewrite length_firstn, length_app. unfold capped in Hl. simpl. lia. }
  repeat split.
  - intros ->. apply last_n_short, Hw.
  - intros ->. apply last_n_short, Hb.
  - destruct (success (wti cp)).
    + right. split; [reflexivity|]. apply Hkeep, Hw.
    + left. apply last_n_short, Hw.
  - destruct (success (brent cp)).
    + right. split; [reflexivity|]. apply Hkeep, Hb.
    + left. apply last_n_short, Hb.
Qed.

Lemma failed_series_keeps_buffer_witness :
  let h := {| h_wti := [ {| e_price := PFloat 75; e_timestamp := 0 |} ];
              h_brent := [ {| e_price := PFloat 78.5; e_timestamp := 0 |} ] |} in
  let cp := {| wti := {| price := PInt 0; timestamp := PInt 0; success := false |};
               brent := {| price := PFloat 79; timestamp := PInt 60; success := true |} |} in
  h_wti (record h (Some cp) 60000000) = h_wti h /\
  h_brent (record h (Some cp) 60000000) =
    [ {| e_price := PFloat 78.5; e_timestamp := 0 |};
      {| e_price := PFloat 79; e_timestamp := 60000000 |} ].
Proof.
  intros h cp.
  assert (Hc : capped_history h) by (split; vm_compute; lia).
  pose proof (failed_series_keeps_buffer h (Some cp) 60000000 Hc) as H.
  cbv zeta in H. destruct H as [Hw _].
  split; [apply Hw; reflexivity | reflexivity].
Defined.

Lemma record_preserves_history_ok_witness :
  let h := {| h_wti := [ {| e_price := PFloat 75; e_timestamp := 0 |} ];
              h_brent := [ {| e_price := PFloat 78.5; e_timestamp := 0 |} ] |} in
  let cp := {| wti := {| price := PFloat 76; timestamp := PInt 60; success := true |};
               brent := {| price := PFloat 79; timestamp := PInt 60; success := true |} |} in
  history_ok (record h (Some cp) 60000000).
Proof.
  intros h cp.
  refine (proj1 (record_preserves_history_ok h (Some cp) 60000000 _ _ _)).
  - split; (split; [vm_compute; lia | repeat constructor]).
  - vm_compute. discriminate.
  - vm_compute. discriminate.
Defined.

(** ** Failures of the fetch *)

Lemma fetch_oil_prices_not_200 (w b : response) :
  (status_code w =? 200) && (status_code b =? 200) = false ->
  fetch_oil_prices (Responds w) (Responds b) =
    (None, [ApiError (status_code w) (status_code b)]).
Proof.
  intros H. unfold fetch_oil_prices, fetch_try. simpl. rewrite H. reflexivity.
Qed.

(** C5, as amended. When either request gets a response whose status is
    outside 2xx, the fetch returns None, the cycle appends no sample (so none
    with price 0) and the history of the session is what it was. The error
    shown is the API error with both status codes when both responses
    arrived, and the network error when the other request failed. *)
Theorem http_error_leaves_history :
  forall (w b : http) (api_key : string) (ss : session_state) (now : datetime),
    non_2xx w = true \/ non_2xx b = true ->
    fst (fetch_oil_prices w b) = None /\
    (forall rw rb,
        w = Responds rw -> b = Responds rb ->
        fetch_oil_prices w b =
          (None, [ApiError (status_code rw) (status_code rb)])) /\
    (w = Fails \/ b = Fails ->
     fetch_oil_prices w b = (None, [NetworkError RequestException])) /\
    samples wti [(w, b, now)] = [] /\
    samples brent [(w, b, now)] = [] /\
    current_history (main api_key ss w b now) = current_history ss.
Proof.
  intros w b api_key ss now H.
  assert (Hboth : forall rw rb,
             w = Responds rw -> b = Responds rb ->
             fetch_oil_prices w b =
               (None, [ApiError (status_code rw) (status_code rb)])).
  { intros rw rb -> ->. apply fetch_oil_prices_not_200.
    unfold non_2xx, is_2xx in H. apply andb_false_iff.
    destruct H as [H | H]; [left | right];
      apply negb_true_iff, andb_false_iff in H; apply Z.eqb_neq; lia. }
  assert (Hfail : w = Fails \/ b = Fails ->
                  fetch_oil_prices w b = (None, [NetworkError RequestException])).
  { intros [-> | ->]; [reflexivity|]. destruct w; reflexivity. }
  assert (E : fst (fetch_oil_prices w b) = None).
  { destruct w as [|rw]; [rewrite Hfail by (left; reflexivity); reflexivity|].
    destruct b as [|rb]; [rewrite Hfail by (right; reflexivity); reflexivity|].
    rewrite (Hboth rw rb eq_refl eq_refl). reflexivity. }
  split; [exact E|]. split; [exact Hboth|]. split; [exact Hfail|].
  unfold samples, main, main_state. simpl. rewrite E. simpl.
  repeat split.
  destruct (string_is_empty api_key); reflexivity.
Qed.

Lemma http_error_leaves_history_witness :
  let h := {| h_wti := [ {| e_price := PFloat 75; e_timestamp := 0 |} ];
              h_brent := [ {| e_price := PFloat 78.5; e_timestamp := 0 |} ] |} in
  fetch_oil_prices (Responds (status_response 500)) (Responds (status_response 200)) =
    (None, [ApiError 500 200]) /\
  main "key" (Some h) (Responds (status_response 500)) (Responds (status_response 200))
    60000000 = Some h.
Proof.
  intros h.
  destruct (http_error_leaves_history
              (Responds (status_response 500)) (Responds (status_response 200))
              "key" (Some h) 60000000 (or_introl eq_refl))
    as (_ & Hboth & _ & _ & _ & Hh).
  split; [exact (Hboth _ _ eq_refl eq_refl) | reflexivity].
Defined.

(** C5, as stated, fails: the WTI response has status 500 and the Brent
    request fails in transport; the fetch reports the network error, and no
    status. *)
Lemma http_status_is_lost_when_the_other_request_fails :
  non_2xx (Responds (status_response 500)) = true /\
  fetch_oil_prices (Responds (status_response 500)) Fails =
    (None, [NetworkError RequestException]) /\
  ~ (exists wti_status brent_status,
        In (ApiError wti_status brent_status)
           (snd (fetch_oil_prices (Responds (status_response 500)) Fails))).
Proof.
  repeat split.
  intros (ws & bs & [H | []]). discriminate H.
Qed.

(** ** Both series or neither *)

Lemma samples_same_length cs :
  List.length (samples wti cs) = List.length (samples brent cs).
Proof.
  induction cs as [| c cs IH]; [reflexivity|].
  unfold samples. simpl flat_map. fold (samples wti cs) (samples brent cs).
  rewrite !length_app, IH. f_equal.
  destruct (fetched c) as [cp|] eqn:E; [|reflexivity].
  apply fetched_marks_success in E as [Hw Hb].
  unfold sample_of. rewrite Hw, Hb. reflexivity.
Qed.

Lemma run_without_key ss cs : run EmptyString ss cs = ss.
Proof.
  unfold run. revert ss.
  induction cs as [| [[w b] t] cs IH]; intros ss; [reflexivity|].
  simpl. apply IH.
Qed.

Lemma string_is_empty_true s : string_is_empty s = true -> s = EmptyString.
Proof.
  destruct s; [reflexivity | discriminate].
Qed.

(** Every state a session reaches from its start, as [run] computes it. *)
Lemma run_from_start api_key cs :
  run api_key None cs = None \/
  run api_key None cs =
    Some {| h_wti := last_n MAX_HISTORY (samples wti cs);
            h_brent := last_n MAX_HISTORY (samples brent cs) |}.
Proof.
  destruct (string_is_empty api_key) eqn:Hk.
  - apply string_is_empty_true in Hk as ->. left. apply run_without_key.
  - destruct cs as [| c cs]; [left; reflexivity|].
    right. rewrite run_nonempty; try assumption; try discriminate.
    + reflexivity.
    + split; vm_compute; lia.
Qed.

(** C9. The fetch returns None or a dict in which both series are marked
    success=True, never a partial result; so each cycle appends one sample
    to both buffers or leaves both as they are, and in every state a session
    reaches the two buffers have the same length. *)
Theorem fetch_is_all_or_nothing :
  (forall (w b : http),
      match fst (fetch_oil_prices w b) with
      | Some cp => success (wti cp) = true /\ success (brent cp) = true
      | None => True
      end) /\
  (forall (h : history) (w b : http) (now : datetime),
      let h' := record h (fst (fetch_oil_prices w b)) now in
      h' = h \/
      exists pw pb,
        h_wti h' = keep_last (h_wti h ++ [ {| e_price := pw; e_timestamp := now |} ]) /\
        h_brent h' = keep_last (h_brent h ++ [ {| e_price := pb; e_timestamp := now |} ])) /\
  (forall (api_key : string) (cs : list cycle),
      match run api_key None cs with
      | Some h => List.length (h_wti h) = List.length (h_brent h)
      | None => True
      end).
Proof.
  repeat split.
  - intros w b. destruct (fst (fetch_oil_prices w b)) as [cp|] eqn:E; [|exact I].
    apply fetch_oil_prices_marks_success in E. exact E.
  - intros h w b now.
    destruct (fst (fetch_oil_prices w b)) as [cp|] eqn:E; simpl; [|left; reflexivity].
    apply fetch_oil_prices_marks_success in E as [Hw Hb].
    right. exists (price (wti cp)), (price (brent cp)).
    unfold update_history, append_if_success; cbn [h_wti h_brent].
    rewrite Hw, Hb. split; reflexivity.
  - intros api_key cs.
    destruct (run_from_start api_key cs) as [-> | ->]; [exact I|].
    cbn [h_wti h_brent]. rewrite !length_last_n, samples_same_length. reflexivity.
Qed.

(** ** A body without the rate field *)

Lemma rate_of_well_shaped data symbol :
  well_shaped data = true ->
  exists v, rate_of data symbol = Ok v /\
            (has_rate data symbol = false -> v = PInt 0).
Proof.
  unfold well_shaped, has_rate, rate_of, py_get.
  destruct data as [| | | | | |top]; try discriminate.
  destruct (dict_lookup "data" top) as [[| | | | | |d]|]; try discriminate; simpl.
  - destruct (dict_lookup "rates" d) as [[| | | | | |r]|]; try discriminate; simpl.
    + intros _. destruct (dict_lookup symbol r) as [v|].
      * exists v. split; [reflexivity | discriminate].
      * exists (PInt 0). split; reflexivity.
    + intros _. exists (PInt 0). split; reflexivity.
  - intros _. exists (PInt 0). split; reflexivity.
Qed.

Lemma timestamp_of_well_shaped data :
  well_shaped data = true -> exists v, timestamp_of data = Ok v.
Proof.
  unfold well_shaped, timestamp_of, py_get.
  destruct data as [| | | | | |top]; try discriminate.
  destruct (dict_lookup "data" top) as [[| | | | | |d]|]; try discriminate; simpl.
  - intros _. destruct (dict_lookup "timestamp" d) as [v|]; eauto.
  - intros _. eauto.
Qed.

(** C6, as amended. For two responses with status 200 whose JSON bodies are
    objects in which data and data.rates, where present, are objects, the
    fetch raises nothing and returns a dict without an error message; both
    series are marked success=True, and a series whose rate field is missing
    has price 0. *)
Theorem missing_rate_becomes_zero :
  forall (w b : response) (wd bd : pyval),
    status_code w = 200 -> status_code b = 200 ->
    json w = Some wd -> json b = Some bd ->
    well_shaped wd = true -> well_shaped bd = true ->
    exists cp,
      fetch_oil_prices (Responds w) (Responds b) = (Some cp, []) /\
      success (wti cp) = true /\ success (brent cp) = true /\
      (has_rate wd "WTI" = false -> price (wti cp) = PInt 0) /\
      (has_rate bd "BRENT" = false -> price (brent cp) = PInt 0).
Proof.
  intros w b wd bd Sw Sb Jw Jb Ww Wb.
  destruct (rate_of_well_shaped wd "WTI" Ww) as (wp & Ewp & Hwp).
  destruct (rate_of_well_shaped bd "BRENT" Wb) as (bp & Ebp & Hbp).
  destruct (timestamp_of_well_shaped wd Ww) as (wt & Ewt).
  destruct (timestamp_of_well_shaped bd Wb) as (bt & Ebt).
  eexists. split.
  - unfold fetch_oil_prices, fetch_try, response_json. simpl.
    rewrite Sw, Sb, Jw, Jb. simpl.
    rewrite Ewp, Ewt, Ebp, Ebt. simpl. reflexivity.
  - simpl. repeat split; assumption.
Qed.

Lemma missing_rate_becomes_zero_witness :
  exists cp,
    fetch_oil_prices
      (Responds {| status_code := 200; json := Some (PDict []) |})
      (ok_response "BRENT" (PFloat 78.5) 0) = (Some cp, []) /\
    price (wti cp) = PInt 0 /\ success (wti cp) = true /\
    price (brent cp) = PFloat 78.5.
Proof.
  destruct (missing_rate_becomes_zero
              {| status_code := 200; json := Some (PDict []) |}
              {| status_code := 200; json := Some (rates_body "BRENT" (PFloat 78.5) 0) |}
              (PDict []) (rates_body "BRENT" (PFloat 78.5) 0)
              eq_refl eq_refl eq_refl eq_refl eq_refl eq_refl)
    as (cp & E & Sw & _ & Hw & _).
  exists cp. split; [exact E|].
  split; [exact (Hw eq_refl)|]. split; [exact Sw|].
  injection E as <-. reflexivity.
Defined.

(** C6, as stated, fails: a missing WTI rate in a 200 response gives price 0
    with success=True, not a failed series; a 2xx status other than 200
    gives None with the API error; and a body that is not an object gives
    None through the handler of unexpected errors. *)
Lemma missing_rate_not_marked_failed :
  let w := {| status_code := 200; json := Some (PDict []) |} in
  let b := {| status_code := 200;
              json := Some (rates_body "BRENT" (PFloat 78.5) 0) |} in
  (is_2xx w = true /\ is_2xx b = true /\ has_rate (PDict []) "WTI" = false /\
   ~ failed_but_present (fetch_oil_prices (Responds w) (Responds b)) wti /\
   exists cp, fetch_oil_prices (Responds w) (Responds b) = (Some cp, []) /\
              price (wti cp) = PInt 0 /\ success (wti cp) = true) /\
  (is_2xx {| status_code := 201; json := Some (PDict []) |} = true /\
   fetch_oil_prices (Responds {| status_code := 201; json := Some (PDict []) |})
     (Responds b) = (None, [ApiError 201 200])) /\
  (has_rate (PList []) "WTI" = false /\
   fetch_oil_prices (Responds {| status_code := 200; json := Some (PList []) |})
     (Responds b) = (None, [UnexpectedError AttributeError])).
Proof.
  intros w b. repeat split.
  - intros (cp & E & _ & S). vm_compute in E. injection E as <-. discriminate S.
  - eexists. split; [vm_compute; reflexivity|]. split; reflexivity.
Qed.

(** ** The rows of the history table *)

Section Rows.

Variable format_2f : pyval -> result string.

Lemma for_each_ok {A B : Type} (f : A -> result B) (l : list A) :
  (forall x, In x l -> exists y, f x = Ok y) ->
  exists ys, for_each f l = Ok ys /\
             List.length ys = List.length l /\
             forall i y, nth_error ys i = Some y ->
                         exists x, nth_error l i = Some x /\ f x = Ok y.
Proof.
  induction l as [| a l IH]; intros Hall.
  - exists []. repeat split. intros [|i] y H; discriminate H.
  - destruct (Hall a (or_introl eq_refl)) as (b & Eb).
    destruct IH as (ys & Eys & Hlen & Hnth).
    { intros x Hx. apply Hall. right. exact Hx. }
    exists (b :: ys). simpl. rewrite Eb, Eys. simpl.
    repeat split; [now rewrite Hlen|].
    intros [|i] y H; simpl in H.
    + injection H as <-. exists a. split; [reflexivity | exact Eb].
    + apply Hnth, H.
Qed.

Lemma strftime_HMS_not_empty t : string_is_empty (strftime_HMS t) = false.
Proof.
  reflexivity.
Qed.

(** What the loop body leaves in a row, when the prices can be formatted. *)
Lemma row_at_ok (wti_h brent_h : list entry) (i : nat) :
  (forall e, nth_error wti_h i = Some e -> exists s, format_2f (e_price e) = Ok s) ->
  (forall e, nth_error brent_h i = Some e -> exists s, format_2f (e_price e) = Ok s) ->
  exists r,
    row_at format_2f wti_h brent_h i = Ok r /\
    Timestamp r =
      match nth_error wti_h i, nth_error brent_h i with
      | Some e, _ => strftime_HMS (e_timestamp e)
      | None, Some e => strftime_HMS (e_timestamp e)
      | None, None => EmptyString
      end /\
    Ok (WTI_Price r) =
      match nth_error wti_h i with
      | Some e => p <- format_price format_2f (e_price e) ;; Ok (Some p)
      | None => Ok None
      end /\
    Ok (Brent_Price r) =
      match nth_error brent_h i with
      | Some e => p <- format_price format_2f (e_price e) ;; Ok (Some p)
      | None => Ok None
      end.
Proof.
  intros Hw Hb. unfold row_at, format_price.
  destruct (nth_error wti_h i) as [ew|];
    destruct (nth_error brent_h i) as [eb|].
  - destruct (Hw ew eq_refl) as (sw & ->). destruct (Hb eb eq_refl) as (sb & ->).
    cbn [Py.bind Timestamp WTI_Price Brent_Price].
    rewrite strftime_HMS_not_empty. eexists. repeat split.
  - destruct (Hw ew eq_refl) as (sw & ->).
    simpl. eexists. repeat split.
  - destruct (Hb eb eq_refl) as (sb & ->).
    simpl. eexists. repeat split.
  - simpl. eexists. repeat split.
Qed.

End Rows.

Lemma for_each_inv {A B : Type} (f : A -> result B) (l : list A) (ys : list B) :
  for_each f l = Ok ys -> forall x, In x l -> exists y, f x = Ok y.
Proof.
  revert ys. induction l as [| a l IH]; intros ys E x Hx; [contradiction|].
  simpl in E. destruct (f a) as [b|e] eqn:Ea; [|discriminate E].
  simpl in E. destruct (for_each f l) as [ys'|e] eqn:El; [|discriminate E].
  destruct Hx as [<- | Hx]; [eauto|].
  exact (IH ys' eq_refl x Hx).
Qed.

Lemma format_price_ok (format_2f : pyval -> result string) (p : pyval) (s : string) :
  format_price format_2f p = Ok s -> exists s', format_2f p = Ok s'.
Proof.
  unfold format_price. destruct (format_2f p) as [s'|e]; [eauto | discriminate].
Qed.

Lemma row_at_formats (format_2f : pyval -> result string)
  (wti_h brent_h : list entry) (i : nat) (r : row) :
  row_at format_2f wti_h brent_h i = Ok r ->
  forall e, nth_error wti_h i = Some e \/ nth_error brent_h i = Some e ->
            exists s, format_2f (e_price e) = Ok s.
Proof.
  unfold row_at. intros E e He.
  destruct (nth_error wti_h i) as [ew|]; destruct (nth_error brent_h i) as [eb|];
    simpl in E.
  - destruct (format_price format_2f (e_price ew)) as [sw|] eqn:Fw; [|discriminate E].
    simpl in E.
    destruct (format_price format_2f (e_price eb)) as [sb|] eqn:Fb; [|discriminate E].
    destruct He as [He | He]; injection He as <-;
      eapply format_price_ok; eassumption.
  - destruct (format_price format_2f (e_price ew)) as [sw|] eqn:Fw; [|discriminate E].
    destruct He as [He | He]; [|discriminate He].
    injection He as <-. eapply format_price_ok; eassumption.
  - destruct (format_price format_2f (e_price eb)) as [sb|] eqn:Fb; [|discriminate E].
    destruct He as [He | He]; [discriminate He|].
    injection He as <-. eapply format_price_ok; eassumption.
  - destruct He as [He | He]; discriminate He.
Qed.

Lemma history_data_rows_when_formattable :
  forall (format_2f : pyval -> result string) (h : history),
    (forall e, In e (h_wti h) \/ In e (h_brent h) ->
               exists s, format_2f (e_price e) = Ok s) ->
    exists rows,
      history_data format_2f h = Ok rows /\
      List.length rows = Nat.max (List.length (h_wti h)) (List.length (h_brent h)) /\
      forall i r,
        nth_error rows i = Some r ->
        (i < Nat.max (List.length (h_wti h)) (List.length (h_brent h)))%nat /\
        Timestamp r =
          match nth_error (h_wti h) i, nth_error (h_brent h) i with
          | Some e, _ => strftime_HMS (e_timestamp e)
          | None, Some e => strftime_HMS (e_timestamp e)
          | None, None => EmptyString
          end /\
        Ok (WTI_Price r) =
          match nth_error (h_wti h) i with
          | Some e => p <- format_price format_2f (e_price e) ;; Ok (Some p)
          | None => Ok None
          end /\
        Ok (Brent_Price r) =
          match nth_error (h_brent h) i with
          | Some e => p <- format_price format_2f (e_price e) ;; Ok (Some p)
          | None => Ok None
          end.
Proof.
  intros format_2f h Hfmt. unfold history_data.
  set (n := Nat.max (List.length (h_wti h)) (List.length (h_brent h))).
  assert (Hrow : forall i, exists r,
             row_at format_2f (h_wti h) (h_brent h) i = Ok r /\
             Timestamp r =
               match nth_error (h_wti h) i, nth_error (h_brent h) i with
               | Some e, _ => strftime_HMS (e_timestamp e)
               | None, Some e => strftime_HMS (e_timestamp e)
               | None, None => EmptyString
               end /\
             Ok (WTI_Price r) =
               match nth_error (h_wti h) i with
               | Some e => p <- format_price format_2f (e_price e) ;; Ok (Some p)
               | None => Ok None
               end /\
             Ok (Brent_Price r) =
               match nth_error (h_brent h) i with
               | Some e => p <- format_price format_2f (e_price e) ;; Ok (Some p)
               | None => Ok None
               end).
  { intros i. apply row_at_ok; intros e He; apply Hfmt;
      [left | right]; eapply nth_error_In; exact He. }
  destruct (for_each_ok (row_at format_2f (h_wti h) (h_brent h)) (seq 0 n))
    as (rows & Erows & Hlen & Hnth).
  { intros i _. destruct (Hrow i) as (r & Er & _). exists r. exact Er. }
  exists rows. split; [exact Erows|].
  rewrite length_seq in Hlen. split; [exact Hlen|].
  intros i r Hr.
  assert (Hi : (i < n)%nat).
  { rewrite <- Hlen. apply nth_error_Some. rewrite Hr. discriminate. }
  split; [exact Hi|].
  destruct (Hnth i r Hr) as (j & Hj & Ej).
  rewrite nth_error_seq in Hj.
  destruct (Nat.ltb_spec i n) as [_|Hge]; [|lia].
  injection Hj as <-. simpl in Ej.
  destruct (Hrow i) as (r' & Er' & Hts & Hwp & Hbp).
  rewrite Ej in Er'. injection Er' as <-.
  repeat split; assumption.
Qed.


Lemma history_data_ok_formats (format_2f : pyval -> result string)
  (h : history) (rows : list row) :
  history_data format_2f h = Ok rows ->
  forall e, In e (h_wti h) \/ In e (h_brent h) ->
            exists s, format_2f (e_price e) = Ok s.
Proof.
  unfold history_data.
  set (n := Nat.max (List.length (h_wti h)) (List.length (h_brent h))).
  intros E e He.
  assert (Hi : exists i, (i < n)%nat /\
               (nth_error (h_wti h) i = Some e \/ nth_error (h_brent h) i = Some e)).
  { destruct He as [He | He]; apply In_nth_error in He as (i & Hi);
      exists i; (split; [|auto]);
      assert (Hlt : nth_error (h_wti h) i <> None \/ nth_error (h_brent h) i <> None)
        by (rewrite Hi; (left + right); discriminate);
      destruct Hlt as [Hlt | Hlt]; apply nth_error_Some in Hlt; subst n; lia. }
  destruct Hi as (i & Hlt & Hnth).
  destruct (for_each_inv _ _ _ E i) as (r & Er).
  { apply in_seq. lia. }
  exact (row_at_formats format_2f _ _ i r Er e Hnth).
Qed.

(** C7, as amended. When every stored price can be formatted, the table has
    exactly max(len(wti), len(brent)) rows; row i merges entry i of the two
    buffers: its timestamp is that of the WTI entry when there is one,
    otherwise that of the Brent entry, and it carries the formatted price of
    each series that has an entry at i. When some stored price cannot be
    formatted, building the rows raises and there is no row. *)
Theorem history_data_merges_by_index :
  forall (format_2f : pyval -> result string) (h : history),
    ((forall e, In e (h_wti h) \/ In e (h_brent h) ->
                exists s, format_2f (e_price e) = Ok s) ->
      exists rows,
        history_data format_2f h = Ok rows /\
        List.length rows = Nat.max (List.length (h_wti h)) (List.length (h_brent h)) /\
        forall i r,
          nth_error rows i = Some r ->
          (i < Nat.max (List.length (h_wti h)) (List.length (h_brent h)))%nat /\
          Timestamp r =
            match nth_error (h_wti h) i, nth_error (h_brent h) i with
            | Some e, _ => strftime_HMS (e_timestamp e)
            | None, Some e => strftime_HMS (e_timestamp e)
            | None, None => EmptyString
            end /\
          Ok (WTI_Price r) =
            match nth_error (h_wti h) i with
            | Some e => p <- format_price format_2f (e_price e) ;; Ok (Some p)
            | None => Ok None
            end /\
          Ok (Brent_Price r) =
            match nth_error (h_brent h) i with
            | Some e => p <- format_price format_2f (e_price e) ;; Ok (Some p)
            | None => Ok None
            end) /\
    (forall e exn,
        In e (h_wti h) \/ In e (h_brent h) ->
        format_2f (e_price e) = Raise exn ->
        exists exn', history_data format_2f h = Raise exn').
Proof.
  intros format_2f h. split.
  - apply history_data_rows_when_formattable.
  - intros e exn He Hraise.
    destruct (history_data format_2f h) as [rows | exn'] eqn:E; [|eauto].
    destruct (history_data_ok_formats format_2f h rows E e He) as (s & Hs).
    rewrite Hs in Hraise. discriminate Hraise.
Qed.

Lemma history_data_merges_by_index_witness :
  let h := {| h_wti := [ {| e_price := PInt 75; e_timestamp := 0 |};
                         {| e_price := PInt 76; e_timestamp := 60000000 |} ];
              h_brent := [ {| e_price := PInt 78; e_timestamp := 1000000 |} ] |} in
  history_data format_2f_small h =
    Ok [ {| Timestamp := "00:00:00"; WTI_Price := Some "$75.00"%string;
            Brent_Price := Some "$78.00"%string |};
         {| Timestamp := "00:01:00"; WTI_Price := Some "$76.00"%string;
            Brent_Price := None |} ].
Proof.
  intros h.
  destruct (proj1 (history_data_merges_by_index format_2f_small h)) as (rows & E & _).
  - intros e [H | H]; simpl in H;
      repeat (destruct H as [<- | H]; [eexists; reflexivity|]); contradiction.
  - rewrite E. vm_compute in E. injection E as <-. reflexivity.
Defined.

(** C7, as stated, fails: a WTI rate that arrives as a JSON string is stored
    as it is, and in the state the session then reaches the rows cannot be
    built: format raises ValueError. *)
Lemma unformattable_price_breaks_table :
  exists h,
    run "key" None [string_rate_cycle] = Some h /\
    h_wti h = [ {| e_price := PStr "75.10"; e_timestamp := 0 |} ] /\
    h_brent h = [ {| e_price := PFloat 78.5; e_timestamp := 0 |} ] /\
    history_data format_spec_2f h = Raise ValueError /\
    ~ (exists rows,
          history_data format_spec_2f h = Ok rows /\
          List.length rows = Nat.max (List.length (h_wti h)) (List.length (h_brent h))).
Proof.
  eexists. split; [vm_compute; reflexivity|].
  split; [reflexivity|]. split; [reflexivity|].
  split; [reflexivity|].
  intros (rows & E & _). discriminate E.
Qed.

(** ** Binary64 arithmetic: adding a zero, multiplying by one *)

Section Binary64.

Local Open Scope float_scope.

Lemma finite_cases x :
  PrimFloat.is_finite x = true ->
  (exists s, Prim2SF x = S754_zero s) \/
  (exists s m e, Prim2SF x = S754_finite s m e).
Proof.
  unfold PrimFloat.is_finite, PrimFloat.is_nan, PrimFloat.is_infinity.
  rewrite !FloatAxioms.eqb_spec, abs_spec.
  change (Prim2SF infinity) with (S754_infinity false).
  destruct (Prim2SF x) as [s | s | | s m e]; simpl.
  - intros _. left. eauto.
  - destruct s; discriminate.
  - discriminate.
  - intros _. right. eauto.
Qed.

Lemma finite_eqb_refl x : PrimFloat.is_finite x = true -> (x =? x) = true.
Proof.
  unfold PrimFloat.is_finite, PrimFloat.is_nan.
  destruct (x =? x); [reflexivity | discriminate].
Qed.

(** [s + d * 0 == s] when neither [s] nor [d] is infinite or NaN. *)
Lemma add_mul_zero s d :
  PrimFloat.is_finite s = true -> PrimFloat.is_finite d = true ->
  (s + d * 0 =? s) = true.
Proof.
  intros Hs Hd.
  pose proof (finite_eqb_refl s Hs) as Hrefl.
  rewrite FloatAxioms.eqb_spec in *. rewrite add_spec, mul_spec.
  change (Prim2SF 0) with (S754_zero false).
  destruct (finite_cases d Hd) as [[sd ->] | (sd & md & ed & ->)];
    destruct (finite_cases s Hs) as [[ss E] | (ss & ms & es & E)];
    rewrite E in *; simpl.
  - destruct ss, sd; reflexivity.
  - exact Hrefl.
  - destruct ss, sd; reflexivity.
  - exact Hrefl.
Qed.

Lemma mul_two_pow_52 m : (m * 4503599627370496)%positive = Pos.iter xO m 52.
Proof.
  rewrite Pos.mul_comm. reflexivity.
Qed.

Lemma digits_shifted m :
  digits2_pos (Pos.iter xO m 52) = (digits2_pos m + 52)%positive.
Proof.
  cbn. lia.
Qed.

Lemma shr_shifted m :
  iter_pos shr_1 52
    {| shr_m := Zpos (Pos.iter xO m 52); shr_r := false; shr_s := false |}
  = {| shr_m := Zpos m; shr_r := false; shr_s := false |}.
Proof.
  reflexivity.
Qed.

Lemma shr_fexp_shifted m e :
  fexp prec emax (Z.pos (digits2_pos m) + e) = e ->
  shr_fexp prec emax (Z.pos (Pos.iter xO m 52)) (e + -52) loc_Exact
  = ({| shr_m := Zpos m; shr_r := false; shr_s := false |}, e).
Proof.
  intros Hc. unfold shr_fexp, Zdigits2. rewrite digits_shifted.
  replace (Z.pos (digits2_pos m + 52) + (e + -52))%Z
    with (Z.pos (digits2_pos m) + e)%Z by lia.
  rewrite Hc.
  replace (e - (e + -52))%Z with 52%Z by lia.
  unfold shr_record_of_loc, shr. rewrite shr_shifted.
  f_equal. lia.
Qed.

Lemma shr_fexp_canonical m e :
  fexp prec emax (Z.pos (digits2_pos m) + e) = e ->
  shr_fexp prec emax (Z.pos m) e loc_Exact
  = ({| shr_m := Zpos m; shr_r := false; shr_s := false |}, e).
Proof.
  intros Hc. unfold shr_fexp, Zdigits2. rewrite Hc, Z.sub_diag. reflexivity.
Qed.

Lemma SF64mul_one s m e :
  bounded prec emax m e = true ->
  SF64mul (S754_finite s m e) (S754_finite false 4503599627370496 (-52))
  = S754_finite s m e.
Proof.
  intros Hb. unfold bounded, canonical_mantissa in Hb.
  apply andb_prop in Hb as [Hc He].
  apply Z.eqb_eq in Hc.
  unfold SF64mul, SFmul, binary_round_aux.
  rewrite mul_two_pow_52, (shr_fexp_shifted m e Hc).
  cbn [shr_m loc_of_shr_record round_nearest_even].
  rewrite (shr_fexp_canonical m e Hc).
  cbn [shr_m]. rewrite He, xorb_false_r. reflexivity.
Qed.

(** [x * 1] is [x], for every binary64 value. *)
Lemma mul_one x : x * 1 = x.
Proof.
  apply Prim2SF_inj. rewrite mul_spec.
  change (Prim2SF 1) with (S754_finite false 4503599627370496 (-52)).
  pose proof (Prim2SF_valid x) as Hv.
  destruct (Prim2SF x) as [s | s | | s m e]; simpl in *.
  - now rewrite xorb_false_r.
  - now rewrite xorb_false_r.
  - reflexivity.
  - apply SF64mul_one, Hv.
Qed.

End Binary64.

(** ** Binary64 arithmetic: an int below 2^53 converts exactly *)

Section IntToFloat.

Lemma digits_iter_xO m d :
  digits2_pos (Pos.iter xO m d) = (digits2_pos m + d)%positive.
Proof.
  induction d as [| d IH] using Pos.peano_ind.
  - simpl. lia.
  - rewrite Pos.iter_succ. simpl. rewrite IH. lia.
Qed.

Lemma value_iter_xO m d : Zpos (Pos.iter xO m d) = Zpos m * 2 ^ Zpos d.
Proof.
  induction d as [| d IH] using Pos.peano_ind.
  - simpl. lia.
  - rewrite Pos.iter_succ, Pos2Z.inj_xO, IH, Pos2Z.inj_succ, Z.pow_succ_r by lia. lia.
Qed.

Lemma digits_lower m : 2 ^ (Zpos (digits2_pos m) - 1) <= Zpos m.
Proof.
  induction m as [p IH | p IH |]; simpl digits2_pos.
  - rewrite Pos2Z.inj_succ.
    replace (Z.succ (Z.pos (digits2_pos p)) - 1)
      with (Z.succ (Z.pos (digits2_pos p) - 1)) by lia.
    rewrite Z.pow_succ_r by lia. lia.
  - rewrite Pos2Z.inj_succ.
    replace (Z.succ (Z.pos (digits2_pos p)) - 1)
      with (Z.succ (Z.pos (digits2_pos p) - 1)) by lia.
    rewrite Z.pow_succ_r by lia. lia.
  - simpl. lia.
Qed.

Lemma small_digits m : Zpos m < 2 ^ 53 -> Zpos (digits2_pos m) <= 53.
Proof.
  intros H.
  destruct (Z.le_gt_cases (Zpos (digits2_pos m)) 53) as [|Hgt]; [assumption|].
  pose proof (digits_lower m) as Hl.
  assert (2 ^ 53 <= 2 ^ (Zpos (digits2_pos m) - 1))
    by (apply Z.pow_le_mono_r; lia).
  lia.
Qed.

(** Rounding a mantissa below 2^53 only shifts it: no bit is lost. *)
Lemma binary_round_small s m :
  Zpos m < 2 ^ 53 ->
  exists mz ez,
    binary_round prec emax s m 0 = S754_finite s mz ez /\
    ez <= 0 /\ Zpos mz = Zpos m * 2 ^ (- ez) /\
    bounded prec emax mz ez = true.
Proof.
  intros Hm. pose proof (small_digits m Hm) as Hd.
  unfold binary_round.
  assert (Hf : fexp prec emax (Z.pos (digits2_pos m) + 0)
               = Z.pos (digits2_pos m) - 53).
  { unfold fexp, emin, prec, emax. lia. }
  rewrite Hf. unfold shl_align.
  assert (Hfin : forall mz ez,
             ez <= 0 -> -52 <= ez ->
             Zpos (digits2_pos mz) = 53 ->
             Zpos mz = Zpos m * 2 ^ (- ez) ->
             exists mz' ez',
               binary_round_aux prec emax s (Z.pos mz) ez loc_Exact
                 = S754_finite s mz' ez' /\
               ez' <= 0 /\ Zpos mz' = Zpos m * 2 ^ (- ez') /\
               bounded prec emax mz' ez' = true).
  { intros mz ez He1 He2 Hdig Hval.
    assert (Hc : fexp prec emax (Z.pos (digits2_pos mz) + ez) = ez).
    { unfold fexp, emin, prec, emax. lia. }
    exists mz, ez. unfold binary_round_aux.
    rewrite (shr_fexp_canonical mz ez Hc).
    cbn [shr_m loc_of_shr_record round_nearest_even].
    rewrite (shr_fexp_canonical mz ez Hc). cbn [shr_m].
    assert (Hle : (ez <=? emax - prec) = true)
      by (apply Z.leb_le; unfold emax, prec; lia).
    rewrite Hle. repeat split; try assumption.
    unfold bounded, canonical_mantissa. rewrite Hc, Z.eqb_refl, Hle. reflexivity. }
  destruct (Z.pos (digits2_pos m) - 53 - 0) as [| p | d] eqn:E.
  - apply Hfin; try lia.
  - lia.
  - apply Hfin; try lia.
    + rewrite digits_iter_xO. lia.
    + rewrite value_iter_xO. f_equal. f_equal. lia.
Qed.

Lemma finite_is_not_infinity s m e :
  bounded prec emax m e = true ->
  Prim2SF (SF2Prim (S754_finite s m e)) = S754_finite s m e /\
  PrimFloat.is_infinity (SF2Prim (S754_finite s m e)) = false.
Proof.
  intros Hb.
  assert (Hp : Prim2SF (SF2Prim (S754_finite s m e)) = S754_finite s m e)
    by (apply Prim2SF_SF2Prim; exact Hb).
  split; [exact Hp|].
  unfold PrimFloat.is_infinity.
  rewrite FloatAxioms.eqb_spec, abs_spec, Hp.
  change (Prim2SF infinity) with (S754_infinity false).
  reflexivity.
Qed.

(** [float(z)] raises nothing and loses nothing for [|z| < 2^53]. *)
Lemma float_of_int_exact z :
  Z.abs z < 2 ^ 53 ->
  exists f,
    SF2Prim (binary_normalize prec emax z 0 false) = f /\
    PrimFloat.is_infinity f = false /\
    float_is_int f z.
Proof.
  intros Hz. eexists. split; [reflexivity|].
  unfold float_is_int.
  destruct z as [| m | m]; cbn [binary_normalize].
  - split; reflexivity.
  - destruct (binary_round_small false m) as (mz & ez & -> & He & Hv & Hb); [lia|].
    destruct (finite_is_not_infinity false mz ez Hb) as [-> ->].
    split; [reflexivity|]. split; [exact He|]. cbn [cond_Zopp]. exact Hv.
  - destruct (binary_round_small true m) as (mz & ez & -> & He & Hv & Hb); [lia|].
    destruct (finite_is_not_infinity true mz ez Hb) as [-> ->].
    split; [reflexivity|]. split; [exact He|]. cbn [cond_Zopp].
    change (Z.neg m) with (- Z.pos m). rewrite Z.mul_opp_l, <- Hv. reflexivity.
Qed.

End IntToFloat.

(** ** The spread *)

(** C3. The spread is computed only when both series of the fetch result
    are marked successful, and is then the value of brent.price - wti.price,
    with no rounding of its own: the integer difference for two ints (bools
    counted as ints), the binary64 difference for two floats, and for an int
    with a float the binary64 difference after the int is converted to the
    nearest float, exactly so below 2^53 and with OverflowError when it is
    too large; a price that is not a number gives TypeError. Otherwise there
    is no spread. For WTI 75.00 and Brent 78.50 it is 3.50, also when the
    WTI rate came as the int 75. *)
Theorem spread_is_brent_minus_wti :
  forall (cp : prices),
    (success (wti cp) = true -> success (brent cp) = true ->
     spread cp = Some (py_sub (price (brent cp)) (price (wti cp))) /\
     (forall x y : float,
         price (wti cp) = PFloat x -> price (brent cp) = PFloat y ->
         spread cp = Some (Ok (PFloat (y - x)%float))) /\
     (forall x y : Z,
         price (wti cp) = PInt x -> price (brent cp) = PInt y ->
         spread cp = Some (Ok (PInt (y - x)))) /\
     (forall x y : Z,
         as_num (price (wti cp)) = Some (NInt x) ->
         as_num (price (brent cp)) = Some (NInt y) ->
         spread cp = Some (Ok (PInt (y - x)))) /\
     (forall (x : Z) (y : float),
         as_num (price (wti cp)) = Some (NInt x) ->
         as_num (price (brent cp)) = Some (NFloat y) ->
         spread cp =
           Some (let fx := SF2Prim (binary_normalize prec emax x 0 false) in
                 if PrimFloat.is_infinity fx then Raise OverflowError
                 else Ok (PFloat (y - fx)%float)) /\
         (Z.abs x < 2 ^ 53 ->
          exists fx, float_is_int fx x /\
                     spread cp = Some (Ok (PFloat (y - fx)%float)))) /\
     (forall (x : float) (y : Z),
         as_num (price (wti cp)) = Some (NFloat x) ->
         as_num (price (brent cp)) = Some (NInt y) ->
         spread cp =
           Some (let fy := SF2Prim (binary_normalize prec emax y 0 false) in
                 if PrimFloat.is_infinity fy then Raise OverflowError
                 else Ok (PFloat (fy - x)%float)) /\
         (Z.abs y < 2 ^ 53 ->
          exists fy, float_is_int fy y /\
                     spread cp = Some (Ok (PFloat (fy - x)%float)))) /\
     (as_num (price (wti cp)) = None \/ as_num (price (brent cp)) = None ->
      spread cp = Some (Raise TypeError))) /\
    (success (wti cp) = false \/ success (brent cp) = false -> spread cp = None) /\
    spread {| wti := {| price := PFloat 75.00; timestamp := PInt 0; success := true |};
              brent := {| price := PFloat 78.50; timestamp := PInt 0; success := true |} |}
      = Some (Ok (PFloat 3.50)) /\
    spread {| wti := {| price := PInt 75; timestamp := PInt 0; success := true |};
              brent := {| price := PFloat 78.50; timestamp := PInt 0; success := true |} |}
      = Some (Ok (PFloat 3.50)).
Proof.
  intros cp. unfold spread. split; [|split; [|split]].
  - intros Hw Hb. rewrite Hw, Hb. cbn [andb]. unfold py_sub.
    split; [reflexivity|].
    split; [intros x y Hx Hy; rewrite Hx, Hy; reflexivity|].
    split; [intros x y Hx Hy; rewrite Hx, Hy; reflexivity|].
    split; [intros x y Hx Hy; rewrite Hx, Hy; reflexivity|].
    split; [|split].
    + intros x y Hx Hy. rewrite Hx, Hy. unfold float_of_int. cbv zeta.
      split.
      * destruct (PrimFloat.is_infinity
                    (SF2Prim (binary_normalize prec emax x 0 false))); reflexivity.
      * intros Hsmall.
        destruct (float_of_int_exact x Hsmall) as (fx & -> & -> & Hex).
        exists fx. split; [exact Hex | reflexivity].
    + intros x y Hx Hy. rewrite Hx, Hy. unfold float_of_int. cbv zeta.
      split.
      * destruct (PrimFloat.is_infinity
                    (SF2Prim (binary_normalize prec emax y 0 false))); reflexivity.
      * intros Hsmall.
        destruct (float_of_int_exact y Hsmall) as (fy & -> & -> & Hex).
        exists fy. split; [exact Hex | reflexivity].
    + intros [Hn | Hn]; rewrite Hn; [|destruct (as_num (price (brent cp))) as [[?|?]|]];
        try reflexivity.
      destruct (as_num (price (brent cp))) as [[?|?]|]; reflexivity.
  - intros [-> | ->]; [reflexivity|].
    rewrite andb_false_r. reflexivity.
  - reflexivity.
  - reflexivity.
Qed.

Lemma spread_is_brent_minus_wti_witness :
  let cp := {| wti := {| price := PFloat 75.25; timestamp := PInt 0; success := true |};
               brent := {| price := PFloat 78.5; timestamp := PInt 0; success := true |} |} in
  spread cp = Some (Ok (PFloat 3.25)) /\
  spread {| wti := wti cp;
            brent := {| price := PFloat 78.5; timestamp := PInt 0; success := false |} |}
    = None.
Proof.
  intros cp. split.
  - destruct (spread_is_brent_minus_wti cp) as (Hboth & _ & _).
    destruct (Hboth eq_refl eq_refl) as (_ & Hfloat & _).
    exact (Hfloat 75.25%float 78.5%float eq_refl eq_refl).
  - refine (proj1 (proj2 (spread_is_brent_minus_wti _)) _).
    right. reflexivity.
Defined.


(** ** The interpolated position *)

Section Position.

Local Open Scope float_scope.

(** C8, as amended. The position is start + (end - start) * progress on lat
    and on lon, in binary64 arithmetic. At progress 0 it equals start
    whenever start and end - start are finite. At progress 1 it is
    start + (end - start), each operation rounded, which need not be end;
    it is end for the points (0,0) and (10,10), whose position at 0.5 is
    (5,5). *)
Theorem position_interpolates :
  forall (start end_ : port) (progress : float),
    position start end_ progress =
      (port_lat start + (port_lat end_ - port_lat start) * progress,
       port_lon start + (port_lon end_ - port_lon start) * progress) /\
    (PrimFloat.is_finite (port_lat start) = true ->
     PrimFloat.is_finite (port_lat end_ - port_lat start) = true ->
     (fst (position start end_ 0) =? port_lat start) = true) /\
    (PrimFloat.is_finite (port_lon start) = true ->
     PrimFloat.is_finite (port_lon end_ - port_lon start) = true ->
     (snd (position start end_ 0) =? port_lon start) = true) /\
    position start end_ 1 =
      (port_lat start + (port_lat end_ - port_lat start),
       port_lon start + (port_lon end_ - port_lon start)) /\
    position (point 0 0) (point 10 10) 0.5 = (5, 5) /\
    position (point 0 0) (point 10 10) 0 = (0, 0) /\
    position (point 0 0) (point 10 10) 1 = (10, 10).
Proof.
  intros start end_ progress. unfold position. simpl.
  split; [reflexivity|].
  split; [apply add_mul_zero|].
  split; [apply add_mul_zero|].
  rewrite !mul_one.
  repeat split.
Qed.

Lemma position_interpolates_witness :
  (fst (position fujairah rotterdam 0) =? port_lat fujairah) = true /\
  (snd (position fujairah rotterdam 0) =? port_lon fujairah) = true.
Proof.
  destruct (position_interpolates fujairah rotterdam 0) as (_ & Hlat & Hlon & _).
  split; [apply Hlat | apply Hlon]; reflexivity.
Defined.

(** C8, as stated, fails at progress 1: from Fujairah to Rotterdam the
    interpolated longitude is not Rotterdam's. *)
Lemma position_at_one_misses_end :
  (snd (position fujairah rotterdam 1) =? port_lon rotterdam) = false /\
  position fujairah rotterdam 1 <> (port_lat rotterdam, port_lon rotterdam).
Proof.
  split; [reflexivity|].
  intros H.
  apply (f_equal (fun v => snd v =? port_lon rotterdam)) in H.
  vm_compute in H. discriminate H.
Qed.

End Position.

(** ** Ships whose port is missing *)

Section Ships.

Variable ports : list port.

Implicit Types (s : ship) (ships : list ship) (acc : tables).

Lemma loop_body_appends max_vol acc s :
  positions (loop_body ports max_vol acc s) =
    positions acc ++ positions (run_loop ports max_vol [s]) /\
  flows (loop_body ports max_vol acc s) =
    flows acc ++ flows (run_loop ports max_vol [s]).
Proof.
  unfold run_loop, loop_body. simpl.
  destruct (get_port_df ports (ship_from s)) as [[p|] w1];
    destruct (get_port_df ports (ship_to s)) as [[q|] w2];
    simpl; rewrite ?app_nil_r; split; reflexivity.
Qed.

Lemma fold_loop_appends max_vol ships acc :
  positions (fold_left (loop_body ports max_vol) ships acc) =
    positions acc ++
    flat_map (fun s => positions (run_loop ports max_vol [s])) ships /\
  flows (fold_left (loop_body ports max_vol) ships acc) =
    flows acc ++
    flat_map (fun s => flows (run_loop ports max_vol [s])) ships.
Proof.
  revert acc. induction ships as [| s ships IH]; intros acc.
  - simpl. rewrite !app_nil_r. split; reflexivity.
  - simpl fold_left. destruct (IH (loop_body ports max_vol acc s)) as [-> ->].
    destruct (loop_body_appends max_vol acc s) as [-> ->].
    simpl flat_map. rewrite <- !app_assoc. split; reflexivity.
Qed.

Lemma run_loop_rows max_vol ships :
  positions (run_loop ports max_vol ships) =
    flat_map (fun s => positions (run_loop ports max_vol [s])) ships /\
  flows (run_loop ports max_vol ships) =
    flat_map (fun s => flows (run_loop ports max_vol [s])) ships.
Proof.
  unfold run_loop at 1 3. apply fold_loop_appends.
Qed.

Lemma skipped_ship_emits_nothing max_vol s :
  has_ports ports s = false ->
  positions (run_loop ports max_vol [s]) = [] /\
  flows (run_loop ports max_vol [s]) = [].
Proof.
  unfold has_ports, run_loop, loop_body. simpl.
  destruct (get_port_df ports (ship_from s)) as [[p|] w1];
    destruct (get_port_df ports (ship_to s)) as [[q|] w2];
    simpl; intros H; try discriminate H; split; reflexivity.
Qed.

Lemma kept_ship_emits_one max_vol s :
  has_ports ports s = true ->
  exists p q,
    fst (get_port_df ports (ship_from s)) = Some p /\
    fst (get_port_df ports (ship_to s)) = Some q /\
    positions (run_loop ports max_vol [s]) = [position_of max_vol p q s] /\
    flows (run_loop ports max_vol [s]) = [flow_of max_vol p q s].
Proof.
  unfold has_ports, run_loop, loop_body. simpl.
  destruct (get_port_df ports (ship_from s)) as [[p|] w1];
    destruct (get_port_df ports (ship_to s)) as [[q|] w2];
    simpl; intros H; try discriminate H.
  exists p, q. repeat split.
Qed.

Lemma flat_map_filter {A B : Type} (f : A -> list B) (g : A -> bool) (l : list A) :
  (forall x, g x = false -> f x = []) ->
  flat_map f l = flat_map f (filter g l).
Proof.
  intros Hf. induction l as [| x l IH]; [reflexivity|].
  simpl. destruct (g x) eqn:E.
  - simpl. now rewrite IH.
  - now rewrite (Hf x E), IH.
Qed.

Lemma flat_map_singletons {A B : Type} (f : A -> list B) (l : list A) :
  (forall x, In x l -> List.length (f x) = 1%nat) ->
  List.length (flat_map f l) = List.length l.
Proof.
  induction l as [| x l IH]; intros Hf; [reflexivity|].
  simpl. rewrite length_app, IH, (Hf x (or_introl eq_refl)); [reflexivity|].
  intros y Hy. apply Hf. right. exact Hy.
Qed.

Lemma skipping_is_silent max_vol ships :
  positions (run_loop ports max_vol ships) =
    positions (run_loop ports max_vol (filter (has_ports ports) ships)) /\
  flows (run_loop ports max_vol ships) =
    flows (run_loop ports max_vol (filter (has_ports ports) ships)).
Proof.
  destruct (run_loop_rows max_vol ships) as [-> ->].
  destruct (run_loop_rows max_vol (filter (has_ports ports) ships)) as [-> ->].
  split; apply flat_map_filter; intros s Hs;
    apply (skipped_ship_emits_nothing max_vol s Hs).
Qed.

Lemma one_row_per_kept_ship max_vol ships :
  let kept := filter (has_ports ports) ships in
  List.length (positions (run_loop ports max_vol ships)) = List.length kept /\
  List.length (flows (run_loop ports max_vol ships)) = List.length kept /\
  map pos_name (positions (run_loop ports max_vol ships)) = map ship_name kept /\
  map flow_name (flows (run_loop ports max_vol ships)) = map ship_name kept.
Proof.
  intros kept.
  destruct (skipping_is_silent max_vol ships) as [-> ->]. fold kept.
  destruct (run_loop_rows max_vol kept) as [-> ->].
  assert (Hkept : forall s, In s kept -> has_ports ports s = true)
    by (intros s Hs; apply filter_In in Hs; exact (proj2 Hs)).
  clearbody kept.
  repeat split.
  - apply flat_map_singletons. intros s Hs.
    destruct (kept_ship_emits_one max_vol s (Hkept s Hs)) as (p & q & _ & _ & -> & _).
    reflexivity.
  - apply flat_map_singletons. intros s Hs.
    destruct (kept_ship_emits_one max_vol s (Hkept s Hs)) as (p & q & _ & _ & _ & ->).
    reflexivity.
  - induction kept as [| s kept IH]; [reflexivity|].
    simpl. rewrite map_app, IH by (intros x Hx; apply Hkept; right; exact Hx).
    destruct (kept_ship_emits_one max_vol s (Hkept s (or_introl eq_refl)))
      as (p & q & _ & _ & -> & _).
    reflexivity.
  - induction kept as [| s kept IH]; [reflexivity|].
    simpl. rewrite map_app, IH by (intros x Hx; apply Hkept; right; exact Hx).
    destruct (kept_ship_emits_one max_vol s (Hkept s (or_introl eq_refl)))
      as (p & q & _ & _ & _ & ->).
    reflexivity.
Qed.

Lemma width_aside max_vol max_vol' ships :
  map position_less_width (positions (run_loop ports max_vol ships)) =
    map position_less_width (positions (run_loop ports max_vol' ships)) /\
  map flow_less_width (flows (run_loop ports max_vol ships)) =
    map flow_less_width (flows (run_loop ports max_vol' ships)).
Proof.
  destruct (run_loop_rows max_vol ships) as [-> ->].
  destruct (run_loop_rows max_vol' ships) as [-> ->].
  induction ships as [| s ships [IHp IHf]]; [split; reflexivity|].
  simpl flat_map. rewrite !map_app, IHp, IHf.
  destruct (has_ports ports s) eqn:E.
  - destruct (kept_ship_emits_one max_vol s E) as (p & q & Ep & Eq & -> & ->).
    destruct (kept_ship_emits_one max_vol' s E) as (p' & q' & Ep' & Eq' & -> & ->).
    rewrite Ep in Ep'. rewrite Eq in Eq'.
    injection Ep' as <-. injection Eq' as <-.
    split; reflexivity.
  - destruct (skipped_ship_emits_nothing max_vol s E) as [-> ->].
    destruct (skipped_ship_emits_nothing max_vol' s E) as [-> ->].
    split; reflexivity.
Qed.

End Ships.

(** C10, as amended. A ship whose origin or destination is not in the ports
    table gets no position row and no flow row, and the loop goes on: the
    tables hold one row per ship with both ports, in the order of the ships,
    and are those of the loop run on these ships alone with the same
    max_vol. Compared with compute_positions on these ships alone, every
    column of their rows is the same except width, which is normalised by
    the largest volume of all the ships, skipped ones included. *)
Theorem missing_port_skips_ship :
  forall (ports : list port) (ships : list ship),
    let kept := filter (has_ports ports) ships in
    let max_vol := series_max (map ship_volume ships) in
    let t := compute_positions ports ships in
    positions t = positions (run_loop ports max_vol kept) /\
    flows t = flows (run_loop ports max_vol kept) /\
    List.length (positions t) = List.length kept /\
    List.length (flows t) = List.length kept /\
    map pos_name (positions t) = map ship_name kept /\
    map flow_name (flows t) = map ship_name kept /\
    map position_less_width (positions t) =
      map position_less_width (positions (compute_positions ports kept)) /\
    map flow_less_width (flows t) =
      map flow_less_width (flows (compute_positions ports kept)).
Proof.
  intros ports ships kept max_vol t. subst t. unfold compute_positions.
  fold max_vol.
  destruct (one_row_per_kept_ship ports max_vol ships) as (L1 & L2 & N1 & N2).
  fold kept in L1, L2, N1, N2.
  destruct (skipping_is_silent ports max_vol ships) as [P F]. fold kept in P, F.
  repeat split; try assumption.
  - rewrite P. apply width_aside.
  - rewrite F. apply width_aside.
Qed.

(** C10, as stated, fails: with the stray ship in the table, whose origin is
    no port, the row of Crude Titan has width 25; without it, width 50. *)
Lemma skipped_ship_changes_width :
  has_ports mock_ports crude_titan = true /\
  has_ports mock_ports stray_ship = false /\
  map pos_width (positions (compute_positions mock_ports [crude_titan; stray_ship]))
    = [25%float] /\
  map pos_width (positions (compute_positions mock_ports [crude_titan]))
    = [50%float] /\
  positions (compute_positions mock_ports [crude_titan; stray_ship]) <>
    positions (compute_positions mock_ports [crude_titan]).
Proof.
  repeat split.
  intros H.
  apply (f_equal (fun l => match l with
                           | [r] => PrimFloat.eqb (pos_width r) 50
                           | _ => true
                           end)) in H.
  vm_compute in H. discriminate H.
Qed.

(** ** Every state a session reaches *)

Lemma not_earlier_later l t t' : not_earlier l t -> t <= t' -> not_earlier l t'.
Proof.
  unfold not_earlier. destruct (last_time l); [lia | trivial].
Qed.

Lemma not_earlier_tail e l t : not_earlier (e :: l) t -> not_earlier l t.
Proof.
  unfold not_earlier. destruct l as [| e' l]; [intros _; exact I | exact (fun H => H)].
Qed.

Lemma not_earlier_skipn k l t : not_earlier l t -> not_earlier (skipn k l) t.
Proof.
  revert l. induction k as [| k IH]; intros l H; [exact H|].
  destruct l as [| e l]; [exact H|].
  simpl. apply IH. exact (not_earlier_tail e l t H).
Qed.

Lemma last_time_snoc l e : last_time (l ++ [e]) = Some (e_timestamp e).
Proof.
  induction l as [| a l IH]; [reflexivity|].
  simpl app. simpl last_time. rewrite IH.
  destruct (l ++ [e]) eqn:E; [|reflexivity].
  destruct l; discriminate E.
Qed.

Lemma not_earlier_after l q t :
  not_earlier l t -> not_earlier (keep_last (append_if_success l q t)) t.
Proof.
  intros H. rewrite keep_last_is_last_n. apply not_earlier_skipn.
  unfold append_if_success. destruct (success q); [|exact H].
  unfold not_earlier. rewrite last_time_snoc. simpl. lia.
Qed.

(** With a clock that never goes back, the cycles keep the invariant. *)
Lemma run_keeps_history_ok api_key cs :
  forall h t0,
    string_is_empty api_key = false ->
    history_ok h ->
    not_earlier (h_wti h) t0 -> not_earlier (h_brent h) t0 ->
    clocks_from t0 cs ->
    exists h', run api_key (Some h) cs = Some h' /\ history_ok h'.
Proof.
  induction cs as [| c cs IH]; intros h t0 Hk Hok Lw Lb Hclk.
  - exists h. split; [reflexivity | exact Hok].
  - destruct Hclk as [Ht Hclk]. destruct c as [[w b] t]. simpl in Ht, Hclk.
    unfold run. simpl fold_left.
    change (fold_left (run_cycle api_key) cs ?s) with (run api_key s cs).
    unfold main. rewrite main_state_started by exact Hk. simpl current_history.
    pose proof (not_earlier_later _ _ _ Lw Ht) as Lw'.
    pose proof (not_earlier_later _ _ _ Lb Ht) as Lb'.
    destruct Hok as [Hw Hb].
    apply (IH _ t Hk); try exact Hclk;
      destruct (fst (fetch_oil_prices w b)) as [cp|]; simpl; try assumption.
    + split; apply buffer_ok_after; assumption.
    + split; assumption.
    + apply not_earlier_after, Lw'.
    + apply not_earlier_after, Lb'.
Qed.

(** From a fresh session, whatever the cycles, the buffers stay within the
    cap. *)
Lemma reachable_is_capped api_key cs :
  match run api_key None cs with
  | Some h => capped_history h
  | None => True
  end.
Proof.
  destruct (run_from_start api_key cs) as [-> | ->]; [exact I|].
  split; unfold capped; cbn [h_wti h_brent]; rewrite length_last_n; lia.
Qed.

(** ** More on the fetch: when it returns a dict, and what is in it *)

Lemma rate_of_value data symbol :
  well_shaped data = true ->
  rate_of data symbol = Ok (or_default (body_rate data symbol) (PInt 0)).
Proof.
  unfold well_shaped, body_rate, rate_of, py_get.
  destruct data as [| | | | | |top]; try discriminate.
  destruct (dict_lookup "data" top) as [[| | | | | |d]|]; try discriminate; simpl.
  - destruct (dict_lookup "rates" d) as [[| | | | | |r]|]; try discriminate; simpl.
    + intros _. destruct (dict_lookup symbol r); reflexivity.
    + reflexivity.
  - reflexivity.
Qed.

Lemma timestamp_of_value data :
  well_shaped data = true ->
  timestamp_of data = Ok (or_default (body_timestamp data) (PInt 0)).
Proof.
  unfold well_shaped, body_timestamp, timestamp_of, py_get.
  destruct data as [| | | | | |top]; try discriminate.
  destruct (dict_lookup "data" top) as [[| | | | | |d]|]; try discriminate; simpl.
  - intros _. destruct (dict_lookup "timestamp" d); reflexivity.
  - reflexivity.
Qed.

Lemma rate_of_ill_shaped data symbol :
  well_shaped data = false -> rate_of data symbol = Raise AttributeError.
Proof.
  unfold well_shaped, rate_of, py_get.
  destruct data as [| | | | | |top]; try reflexivity.
  destruct (dict_lookup "data" top) as [[| | | | | |d]|];
    try discriminate; try reflexivity; simpl.
  destruct (dict_lookup "rates" d) as [[| | | | | |r]|];
    try discriminate; reflexivity.
Qed.

(** The fetch in closed form, for two responses that arrived. *)
Lemma fetch_oil_prices_responses (rw rb : response) :
  fetch_oil_prices (Responds rw) (Responds rb) =
    if (status_code rw =? 200) && (status_code rb =? 200) then
      match json rw, json rb with
      | Some wd, Some bd =>
          if well_shaped wd && well_shaped bd then
            (Some {| wti := {| price := or_default (body_rate wd "WTI") (PInt 0);
                               timestamp := or_default (body_timestamp wd) (PInt 0);
                               success := true |};
                     brent := {| price := or_default (body_rate bd "BRENT") (PInt 0);
                                 timestamp := or_default (body_timestamp bd) (PInt 0);
                                 success := true |} |}, [])
          else (None, [UnexpectedError AttributeError])
      | _, _ => (None, [NetworkError JSONDecodeError])
      end
    else (None, [ApiError (status_code rw) (status_code rb)]).
Proof.
  unfold fetch_oil_prices, fetch_try, response_json. simpl.
  destruct ((status_code rw =? 200) && (status_code rb =? 200)); [|reflexivity].
  destruct (json rw) as [wd|]; [|reflexivity].
  destruct (json rb) as [bd|]; [|reflexivity]. simpl.
  destruct (well_shaped wd) eqn:Ww.
  - rewrite (rate_of_value wd _ Ww), (timestamp_of_value wd Ww). simpl.
    destruct (well_shaped bd) eqn:Wb.
    + rewrite (rate_of_value bd _ Wb), (timestamp_of_value bd Wb). reflexivity.
    + rewrite (rate_of_ill_shaped bd _ Wb). reflexivity.
  - rewrite (rate_of_ill_shaped wd _ Ww). reflexivity.
Qed.

(** X1. The fetch returns a dict exactly when both requests get a response
    with status 200 whose body is JSON, an object, with data and data.rates
    objects where present. *)
Theorem fetch_returns_dict_iff :
  forall (w b : http),
    (exists cp, fst (fetch_oil_prices w b) = Some cp) <->
    (exists rw rb wd bd,
        w = Responds rw /\ b = Responds rb /\
        status_code rw = 200 /\ status_code rb = 200 /\
        json rw = Some wd /\ json rb = Some bd /\
        well_shaped wd = true /\ well_shaped bd = true).
Proof.
  intros w b. split.
  - intros (cp & E).
    destruct w as [|rw]; [discriminate E|].
    destruct b as [|rb]; [discriminate E|].
    rewrite fetch_oil_prices_responses in E.
    destruct ((status_code rw =? 200) && (status_code rb =? 200)) eqn:S;
      [|discriminate E].
    apply andb_prop in S as [Sw Sb].
    destruct (json rw) as [wd|] eqn:Jw; [|discriminate E].
    destruct (json rb) as [bd|] eqn:Jb; [|discriminate E].
    destruct (well_shaped wd && well_shaped bd) eqn:W; [|discriminate E].
    apply andb_prop in W as [Ww Wb].
    exists rw, rb, wd, bd. repeat split; try assumption; now apply Z.eqb_eq.
  - intros (rw & rb & wd & bd & -> & -> & Sw & Sb & Jw & Jb & Ww & Wb).
    rewrite fetch_oil_prices_responses, Sw, Sb, Jw, Jb, Ww, Wb. simpl.
    eexists. reflexivity.
Qed.

(** X2. A fetch that returns a dict shows no error and one that returns None
    shows exactly one. When either request fails in transport the error is
    the network error, whatever the other request gave: a non-200 status of
    the WTI response is not reported when the Brent request fails. *)
Theorem fetch_reports_one_error :
  forall (w b : http),
    (match fst (fetch_oil_prices w b) with
     | Some _ => snd (fetch_oil_prices w b) = []
     | None => exists e, snd (fetch_oil_prices w b) = [e]
     end) /\
    (w = Fails \/ b = Fails ->
     fetch_oil_prices w b = (None, [NetworkError RequestException])).
Proof.
  intros w b. split.
  - destruct w as [|rw]; [simpl; eauto|].
    destruct b as [|rb]; [simpl; eauto|].
    rewrite fetch_oil_prices_responses.
    destruct ((status_code rw =? 200) && (status_code rb =? 200)); [|simpl; eauto].
    destruct (json rw) as [wd|]; [|simpl; eauto].
    destruct (json rb) as [bd|]; [|simpl; eauto].
    destruct (well_shaped wd && well_shaped bd); simpl; eauto.
  - intros [-> | ->]; [reflexivity|].
    destruct w; reflexivity.
Qed.

Lemma fetch_reports_one_error_witness :
  fetch_oil_prices (Responds (status_response 500)) Fails =
    (None, [NetworkError RequestException]).
Proof.
  exact (proj2 (fetch_reports_one_error (Responds (status_response 500)) Fails)
           (or_intror eq_refl)).
Defined.

(** X3. When the fetch returns a dict, the price of each series is the value
    stored under its own symbol in data.rates of its own response, and its
    timestamp the value of data.timestamp there, each 0 when missing; both
    series are marked successful. *)
Theorem fetched_values_come_from_bodies :
  forall (rw rb : response) (wd bd : pyval),
    status_code rw = 200 -> status_code rb = 200 ->
    json rw = Some wd -> json rb = Some bd ->
    well_shaped wd = true -> well_shaped bd = true ->
    fetch_oil_prices (Responds rw) (Responds rb) =
      (Some {| wti := {| price := or_default (body_rate wd "WTI") (PInt 0);
                         timestamp := or_default (body_timestamp wd) (PInt 0);
                         success := true |};
               brent := {| price := or_default (body_rate bd "BRENT") (PInt 0);
                           timestamp := or_default (body_timestamp bd) (PInt 0);
                           success := true |} |}, []).
Proof.
  intros rw rb wd bd Sw Sb Jw Jb Ww Wb.
  rewrite fetch_oil_prices_responses, Sw, Sb, Jw, Jb, Ww, Wb. reflexivity.
Qed.

Lemma fetched_values_come_from_bodies_witness :
  fetch_oil_prices (ok_response "WTI" (PFloat 75) 1700000000)
                   (ok_response "BRENT" (PFloat 78.5) 1700000060) =
    (Some {| wti := {| price := PFloat 75; timestamp := PInt 1700000000;
                       success := true |};
             brent := {| price := PFloat 78.5; timestamp := PInt 1700000060;
                         success := true |} |}, []).
Proof.
  exact (fetched_values_come_from_bodies
           {| status_code := 200;
              json := Some (rates_body "WTI" (PFloat 75) 1700000000) |}
           {| status_code := 200;
              json := Some (rates_body "BRENT" (PFloat 78.5) 1700000060) |}
           (rates_body "WTI" (PFloat 75) 1700000000)
           (rates_body "BRENT" (PFloat 78.5) 1700000060)
           eq_refl eq_refl eq_refl eq_refl eq_refl eq_refl).
Defined.

(** ** More on the history: zero samples, failed cycles, shared timestamps *)

Lemma keep_last_snoc {A : Type} (l : list A) (x : A) :
  exists older, keep_last (l ++ [x]) = older ++ [x].
Proof.
  rewrite keep_last_is_last_n. unfold last_n.
  rewrite length_app, skipn_app. simpl List.length.
  exists (skipn (List.length l + 1 - MAX_HISTORY) l).
  replace (List.length l + 1 - MAX_HISTORY - List.length l)%nat with 0%nat
    by (unfold MAX_HISTORY; lia).
  reflexivity.
Qed.

(** X4. With a key, a cycle in which both responses have status 200 and
    well-shaped bodies, and the body of the WTI response has no WTI rate,
    appends a sample of price 0 to the WTI buffer: the newest entry after
    the cycle is that sample. *)
Theorem missing_rate_is_recorded_as_zero :
  forall (api_key : string) (ss : session_state) (rw rb : response)
         (wd bd : pyval) (now : datetime),
    string_is_empty api_key = false ->
    status_code rw = 200 -> status_code rb = 200 ->
    json rw = Some wd -> json rb = Some bd ->
    well_shaped wd = true -> well_shaped bd = true ->
    body_rate wd "WTI" = None ->
    exists older,
      h_wti (current_history (main api_key ss (Responds rw) (Responds rb) now)) =
        older ++ [ {| e_price := PInt 0; e_timestamp := now |} ].
Proof.
  intros api_key ss rw rb wd bd now Hk Sw Sb Jw Jb Ww Wb Hrate.
  unfold main. rewrite main_state_started by exact Hk.
  rewrite fetch_oil_prices_responses, Sw, Sb, Jw, Jb, Ww, Wb, Hrate.
  simpl. apply keep_last_snoc.
Qed.

Lemma missing_rate_is_recorded_as_zero_witness :
  exists older,
    h_wti (current_history
             (main "key" None
                (Responds {| status_code := 200; json := Some (PDict []) |})
                (ok_response "BRENT" (PFloat 78.5) 0) 60000000)) =
      older ++ [ {| e_price := PInt 0; e_timestamp := 60000000 |} ].
Proof.
  exact (missing_rate_is_recorded_as_zero "key" None
           {| status_code := 200; json := Some (PDict []) |}
           {| status_code := 200; json := Some (rates_body "BRENT" (PFloat 78.5) 0) |}
           (PDict []) (rates_body "BRENT" (PFloat 78.5) 0) 60000000
           eq_refl eq_refl eq_refl eq_refl eq_refl eq_refl eq_refl eq_refl).
Defined.

Lemma samples_count side cs :
  (side = wti \/ side = brent) ->
  List.length (samples side cs) = successes cs.
Proof.
  intros Hside. unfold successes.
  induction cs as [| c cs IH]; [reflexivity|].
  unfold samples. simpl flat_map. fold (samples side cs).
  rewrite length_app, IH. simpl filter. unfold successful at 2.
  destruct (fetched c) as [cp|] eqn:E; [|reflexivity].
  apply fetched_marks_success in E as [Hw Hb].
  unfold sample_of. destruct Hside as [-> | ->]; [rewrite Hw | rewrite Hb]; reflexivity.
Qed.

(** X5. From a fresh session and with a key, after any cycles, failed ones
    among them, each buffer is the last MAX_HISTORY samples of the cycles
    whose fetch returned a dict, in their order; its length is the smaller of
    MAX_HISTORY and the number of those cycles. *)
Theorem history_is_last_successful_samples :
  forall (api_key : string) (cs : list cycle),
    string_is_empty api_key = false ->
    cs <> [] ->
    exists h,
      run api_key None cs = Some h /\
      h_wti h = last_n MAX_HISTORY (samples wti cs) /\
      h_brent h = last_n MAX_HISTORY (samples brent cs) /\
      List.length (h_wti h) = Nat.min MAX_HISTORY (successes cs) /\
      List.length (h_brent h) = Nat.min MAX_HISTORY (successes cs).
Proof.
  intros api_key cs Hk Hne.
  rewrite run_nonempty; try assumption; [|split; vm_compute; lia].
  eexists. split; [reflexivity|]. cbn [h_wti h_brent current_history app].
  rewrite !length_last_n.
  rewrite (samples_count wti cs (or_introl eq_refl)).
  rewrite (samples_count brent cs (or_intror eq_refl)).
  repeat split.
Qed.

Lemma history_is_last_successful_samples_witness :
  exists h,
    run "key" None
      [ demo_cycle 0; (Responds (status_response 500), Fails, 60000000);
        demo_cycle 2 ] = Some h /\
    List.length (h_wti h) = 2%nat /\ List.length (h_brent h) = 2%nat.
Proof.
  destruct (history_is_last_successful_samples "key"
              [ demo_cycle 0; (Responds (status_response 500), Fails, 60000000);
                demo_cycle 2 ] eq_refl)
    as (h & E & _ & _ & Lw & Lb).
  - discriminate.
  - exists h. repeat split; assumption.
Defined.

Lemma samples_same_times cs :
  map e_timestamp (samples wti cs) = map e_timestamp (samples brent cs).
Proof.
  induction cs as [| c cs IH]; [reflexivity|].
  unfold samples. simpl flat_map. fold (samples wti cs) (samples brent cs).
  rewrite !map_app, IH. f_equal.
  destruct (fetched c) as [cp|] eqn:E; [|reflexivity].
  apply fetched_marks_success in E as [Hw Hb].
  unfold sample_of. rewrite Hw, Hb. reflexivity.
Qed.

Lemma map_last_n {A B : Type} (f : A -> B) (n : nat) (l : list A) :
  map f (last_n n l) = last_n n (map f l).
Proof.
  unfold last_n. rewrite length_map. symmetry. apply skipn_map.
Qed.

Lemma run_same_times api_key cs h :
  run api_key None cs = Some h ->
  map e_timestamp (h_wti h) = map e_timestamp (h_brent h).
Proof.
  intros E. destruct (run_from_start api_key cs) as [E' | E'];
    rewrite E' in E; [discriminate E|].
  injection E as <-. cbn [h_wti h_brent].
  rewrite !map_last_n, samples_same_times. reflexivity.
Qed.

(** X6. In every state a session reaches from its start, the two buffers
    hold the same timestamps, index by index: entry i of the WTI buffer and
    entry i of the Brent buffer were appended by the same cycle. *)
Theorem buffers_share_timestamps :
  forall (api_key : string) (cs : list cycle),
    match run api_key None cs with
    | None => True
    | Some h =>
        map e_timestamp (h_wti h) = map e_timestamp (h_brent h) /\
        forall (i : nat) (ew eb : entry),
          nth_error (h_wti h) i = Some ew ->
          nth_error (h_brent h) i = Some eb ->
          e_timestamp ew = e_timestamp eb
    end.
Proof.
  intros api_key cs.
  destruct (run api_key None cs) as [h|] eqn:E; [|exact I].
  pose proof (run_same_times api_key cs h E) as Hm.
  split; [exact Hm|].
  intros i ew eb Hw Hb.
  apply (map_nth_error e_timestamp) in Hw.
  apply (map_nth_error e_timestamp) in Hb.
  rewrite Hm, Hb in Hw. now injection Hw.
Qed.

(** ** More on the table, the colour and the chart *)

(** X7. The rows of the history table are built without an exception
    exactly when every price stored in the two buffers can be formatted: one
    entry that cannot (a rate that came as a string, say) makes the whole
    table raise. *)
Theorem history_data_raises_iff_unformattable :
  forall (format_2f : pyval -> result string) (h : history),
    (exists rows, history_data format_2f h = Ok rows) <->
    (forall e, In e (h_wti h) \/ In e (h_brent h) ->
               exists s, format_2f (e_price e) = Ok s).
Proof.
  intros format_2f h. unfold history_data.
  set (n := Nat.max (List.length (h_wti h)) (List.length (h_brent h))).
  split.
  - intros (rows & E) e He.
    assert (Hi : exists i, (i < n)%nat /\
                 (nth_error (h_wti h) i = Some e \/ nth_error (h_brent h) i = Some e)).
    { destruct He as [He | He]; apply In_nth_error in He as (i & Hi);
        exists i; (split; [|auto]);
        assert (Hlt : nth_error (h_wti h) i <> None \/ nth_error (h_brent h) i <> None)
          by (rewrite Hi; (left + right); discriminate);
        destruct Hlt as [Hlt | Hlt]; apply nth_error_Some in Hlt; subst n; lia. }
    destruct Hi as (i & Hlt & Hnth).
    destruct (for_each_inv _ _ _ E i) as (r & Er).
    { apply in_seq. lia. }
    exact (row_at_formats format_2f _ _ i r Er e Hnth).
  - intros Hfmt.
    destruct (for_each_ok (row_at format_2f (h_wti h) (h_brent h)) (seq 0 n))
      as (rows & Erows & _).
    { intros i _.
      destruct (row_at_ok format_2f (h_wti h) (h_brent h) i) as (r & Er & _).
      - intros e He. apply Hfmt. left. eapply nth_error_In. exact He.
      - intros e He. apply Hfmt. right. eapply nth_error_In. exact He.
      - exists r. exact Er. }
    exists rows. exact Erows.
Qed.

Section ChangeColour.

Local Open Scope float_scope.
Import AppView.

(** The four ways a float compares with zero. *)
Lemma float_sign_cases f :
  ((0 <? f) = true /\ (f <? 0) = false /\ (f =? 0) = false /\ PrimFloat.is_nan f = false) \/
  ((0 <? f) = false /\ (f <? 0) = true /\ (f =? 0) = false /\ PrimFloat.is_nan f = false) \/
  ((0 <? f) = false /\ (f <? 0) = false /\ (f =? 0) = true /\ PrimFloat.is_nan f = false) \/
  ((0 <? f) = false /\ (f <? 0) = false /\ (f =? 0) = false /\ PrimFloat.is_nan f = true).
Proof.
  unfold PrimFloat.is_nan.
  rewrite !ltb_spec, !FloatAxioms.eqb_spec.
  change (Prim2SF 0) with (S754_zero false).
  destruct (Prim2SF f) as [s | s | | s m e].
  - right. right. left. repeat split.
  - destruct s; [right; left | left]; repeat split.
  - right. right. right. repeat split.
  - assert (Hrefl : SFeqb (S754_finite s m e) (S754_finite s m e) = true).
    { unfold SFeqb, SFcompare.
      rewrite Z.compare_refl, Pos.compare_cont_refl. destruct s; reflexivity. }
    rewrite Hrefl.
    destruct s; [right; left | left]; repeat split.
Qed.

Lemma opp_sign f : (0 <? - f) = (f <? 0) /\ (- f <? 0) = (0 <? f).
Proof.
  rewrite !ltb_spec, opp_spec.
  change (Prim2SF 0) with (S754_zero false).
  destruct (Prim2SF f) as [s | s | | s m e]; simpl; try destruct s; split; reflexivity.
Qed.

(** X8. The colour of a change follows its sign: for a float it is neutral
    exactly when the change is a zero or NaN, and the colour of the opposite
    change is the opposite colour; for an int it is neutral exactly at 0; a
    value that is not a number raises TypeError. *)
Theorem price_change_color_follows_sign :
  (forall f : float,
      (get_price_change_color (PFloat f) = Ok "positive"%string
       \/ get_price_change_color (PFloat f) = Ok "negative"%string
       \/ get_price_change_color (PFloat f) = Ok "neutral"%string) /\
      (get_price_change_color (PFloat f) = Ok "neutral"%string <->
       (f =? 0) = true \/ PrimFloat.is_nan f = true) /\
      (get_price_change_color (PFloat (- f)) = Ok "positive"%string <->
       get_price_change_color (PFloat f) = Ok "negative"%string) /\
      (get_price_change_color (PFloat (- f)) = Ok "negative"%string <->
       get_price_change_color (PFloat f) = Ok "positive"%string)) /\
  (forall z : Z,
      get_price_change_color (PInt z) =
        Ok (if (0 <? z)%Z then "positive"%string
            else if (z <? 0)%Z then "negative"%string else "neutral"%string)
      /\ (get_price_change_color (PInt z) = Ok "neutral"%string <-> z = 0%Z)) /\
  (forall v : pyval,
      as_num v = None <-> get_price_change_color v = Raise TypeError).
Proof.
  split; [|split].
  - intros f. unfold get_price_change_color, py_gt_zero, py_lt_zero. simpl.
    destruct (opp_sign f) as [-> ->].
    destruct (float_sign_cases f) as [C | [C | [C | C]]];
      destruct C as (-> & -> & -> & ->); simpl;
      repeat split; intros; auto; try discriminate;
      match goal with H : _ \/ _ |- _ => destruct H; discriminate end.
  - intros z. unfold get_price_change_color, py_gt_zero, py_lt_zero. simpl.
    destruct (Z.ltb_spec 0 z); simpl.
    + split; [reflexivity|]. split; [discriminate | lia].
    + destruct (Z.ltb_spec z 0); simpl.
      * split; [reflexivity|]. split; [discriminate | lia].
      * split; [reflexivity|]. split; [lia | reflexivity].
  - intros v. unfold get_price_change_color, py_gt_zero, py_lt_zero.
    destruct (as_num v) as [[z|f]|]; simpl.
    + split; [discriminate|].
      destruct (0 <? z)%Z; [discriminate|]. destruct (z <? 0)%Z; discriminate.
    + split; [discriminate|].
      destruct (0 <? f); [discriminate|]. destruct (f <? 0); discriminate.
    + split; reflexivity.
Qed.

End ChangeColour.

Section Chart.

Import AppView.

(** X9. In every state a session reaches from its start the chart has no
    trace (both buffers empty) or two, WTI then Brent, over the same x
    values and with one y value per x value; the chart is drawn (line 311)
    exactly when these traces have at least two points. *)
Theorem chart_traces_share_x :
  forall (api_key : string) (cs : list cycle),
    match run api_key None cs with
    | None => True
    | Some h =>
        (h_wti h = [] /\ h_brent h = [] /\
         create_price_chart h = [] /\ chart_shown h = false) \/
        (exists tw tb,
            create_price_chart h = [tw; tb] /\
            trace_name tw = "WTI"%string /\ trace_name tb = "Brent"%string /\
            trace_x tw = trace_x tb /\
            trace_y tw = map e_price (h_wti h) /\
            trace_y tb = map e_price (h_brent h) /\
            List.length (trace_y tw) = List.length (trace_x tw) /\
            List.length (trace_y tb) = List.length (trace_x tb) /\
            chart_shown h = (1 <? List.length (trace_x tw))%nat)
    end.
Proof.
  intros api_key cs.
  destruct (run api_key None cs) as [h|] eqn:E; [|exact I].
  pose proof (run_same_times api_key cs h E) as Hm.
  assert (Hlen : List.length (h_wti h) = List.length (h_brent h))
    by (rewrite <- (length_map e_timestamp (h_wti h)), Hm; apply length_map).
  unfold create_price_chart, chart_shown.
  destruct (h_wti h) as [| ew lw] eqn:Ew; destruct (h_brent h) as [| eb lb] eqn:Eb;
    try discriminate Hlen.
  - left. repeat split.
  - right. simpl list_is_empty. cbn [app].
    eexists. eexists. split; [reflexivity|].
    cbn [trace_name trace_x trace_y].
    repeat split; try assumption; try (now rewrite !length_map).
    rewrite length_map, Hlen. apply orb_diag.
Qed.

End Chart.

(** ** src/test_dashboard.py: when the spread is shown *)

Section TestPage.

Import TestDashboard.

Variable format_2f : pyval -> result string.

Lemma test_api_spread (o : http) (now : datetime) (s : string) :
  In (Metric "Brent-WTI Spread" s) (test_api format_2f o now) ->
  exists r data rates w b,
    o = Responds r /\ status_code r = 200 /\ json r = Some data /\
    rates_of data = Ok rates /\
    py_get rates "WTI" (PInt 0) = Ok w /\
    py_get rates "BRENT" (PInt 0) = Ok b /\
    truthy w = true /\ truthy b = true /\
    (d <- py_sub b w ;; format_price format_2f d) = Ok s.
Proof.
  unfold test_api. destruct o as [|r]; simpl.
  { intros [H | []]. discriminate H. }
  destruct (Z.eqb_spec (status_code r) 200) as [S | S].
  2:{ intros [H | []]. discriminate H. }
  unfold response_json.
  destruct (json r) as [data|] eqn:J; simpl.
  2:{ intros [H | []]. discriminate H. }
  destruct (rates_of data) as [rates|] eqn:R.
  2:{ intros [H | []]. discriminate H. }
  unfold price_metric.
  destruct (py_get rates "WTI" (PInt 0)) as [w|] eqn:Gw; simpl.
  2:{ intros [H | []]. discriminate H. }
  destruct (format_price format_2f w) as [ws|]; simpl.
  2:{ intros [H | []]. discriminate H. }
  intros [H | H]; [discriminate H|]. revert H.
  destruct (py_get rates "BRENT" (PInt 0)) as [b|] eqn:Gb; simpl.
  2:{ intros [H | []]. discriminate H. }
  destruct (format_price format_2f b) as [bs|]; simpl.
  2:{ intros [H | []]. discriminate H. }
  intros [H | H]; [discriminate H|]. revert H.
  unfold spread_and_caption.
  destruct (truthy w) eqn:Tw; destruct (truthy b) eqn:Tb; simpl;
    try (intros [H | []]; discriminate H).
  destruct (d <- py_sub b w ;; format_price format_2f d) as [s'|] eqn:D.
  2:{ intros [H | []]. discriminate H. }
  intros [H | [H | []]]; [|discriminate H].
  injection H as <-.
  exists r, data, rates, w, b. repeat split; assumption.
Qed.

End TestPage.

(** X10. The test page shows the spread metric only for a response with
    status 200 whose rates hold a truthy WTI and a truthy Brent price, and
    its value is then the formatted brent - wti; a rate that is missing (and
    so read as 0) or zero leaves the spread out. *)
Theorem test_page_spread_needs_both_rates :
  forall (format_2f : pyval -> result string) (api_key : string) (o : http)
         (now : datetime) (s : string),
    In (TestDashboard.Metric "Brent-WTI Spread" s)
       (TestDashboard.test_page format_2f api_key o now) ->
    exists r data rates w b,
      o = Responds r /\ status_code r = 200 /\ json r = Some data /\
      TestDashboard.rates_of data = Ok rates /\
      py_get rates "WTI" (PInt 0) = Ok w /\
      py_get rates "BRENT" (PInt 0) = Ok b /\
      TestDashboard.truthy w = true /\ TestDashboard.truthy b = true /\
      w <> PInt 0 /\ b <> PInt 0 /\
      (d <- py_sub b w ;; format_price format_2f d) = Ok s.
Proof.
  intros format_2f api_key o now s H.
  unfold TestDashboard.test_page in H. apply in_app_or in H as [H | H].
  - destruct (string_is_empty api_key).
    + destruct H as [H | []]. discriminate H.
    + destruct (test_api_spread format_2f o now s H)
        as (r & data & rates & w & b & Ho & S & J & R & Gw & Gb & Tw & Tb & D).
      exists r, data, rates, w, b.
      repeat split; try assumption; intros ->; discriminate.
  - destruct H as [H | []]. discriminate H.
Qed.

Lemma test_page_spread_needs_both_rates_witness :
  exists w b,
    py_get (PDict [("WTI"%string, PInt 75); ("BRENT"%string, PInt 78)])
      "WTI" (PInt 0) = Ok w /\
    py_get (PDict [("WTI"%string, PInt 75); ("BRENT"%string, PInt 78)])
      "BRENT" (PInt 0) = Ok b /\
    (d <- py_sub b w ;; format_price format_2f_small d) = Ok "$03.00"%string.
Proof.
  destruct (test_page_spread_needs_both_rates format_2f_small "key"
              (Responds {| status_code := 200;
                           json := Some (PDict [("data"%string,
                                     PDict [("rates"%string,
                                       PDict [("WTI"%string, PInt 75);
                                              ("BRENT"%string, PInt 78)])])]) |})
              0 "$03.00")
    as (r & data & rates & w & b & Ho & S & J & R & Gw & Gb & _ & _ & _ & _ & D).
  - vm_compute. right. right. left. reflexivity.
  - injection Ho as <-. simpl in J. injection J as <-.
    vm_compute in R. injection R as <-.
    exists w, b. repeat split; assumption.
Defined.

(** ** More on the ship flows: lookups, warnings, rows, filters *)

(** X11. [get_port_df] returns the first row of the table with the name
    asked for, and no warning; when no row has the name it returns None and
    warns about that name. *)
Theorem get_port_df_first_match :
  forall (df : list port) (name : string),
    match get_port_df df name with
    | (Some p, ws) =>
        ws = [] /\
        exists before after,
          df = before ++ p :: after /\ port_name p = name /\
          forall q, In q before -> port_name q <> name
    | (None, ws) =>
        ws = [PortNotFound name] /\
        forall q, In q df -> port_name q <> name
    end.
Proof.
  intros df name. unfold get_port_df.
  induction df as [| a df IH]; simpl.
  - split; [reflexivity | intros q []].
  - destruct (String.eqb_spec (port_name a) name) as [Ea | Ea].
    + split; [reflexivity|]. exists [], df.
      repeat split; [exact Ea | intros q []].
    + destruct (filter (fun r => String.eqb (port_name r) name) df) as [| p rest].
      * destruct IH as [Hw Hall]. split; [exact Hw|].
        intros q [<- | Hq]; [exact Ea | exact (Hall q Hq)].
      * destruct IH as (Hw & before & after & -> & Hp & Hb).
        split; [exact Hw|]. exists (a :: before), after.
        repeat split; [exact Hp|].
        intros q [<- | Hq]; [exact Ea | exact (Hb q Hq)].
Qed.

Section ShipRows.

Variable ports : list port.

Implicit Types (s : ship) (ships : list ship).

Lemma get_port_df_warning name :
  snd (get_port_df ports name) =
    match fst (get_port_df ports name) with
    | Some _ => []
    | None => [PortNotFound name]
    end.
Proof.
  unfold get_port_df.
  destruct (filter (fun r => String.eqb (port_name r) name) ports); reflexivity.
Qed.

Lemma get_port_df_in name p :
  fst (get_port_df ports name) = Some p -> In p ports /\ port_name p = name.
Proof.
  intros E. unfold get_port_df in E.
  destruct (filter (fun r => String.eqb (port_name r) name) ports) as [| r rest] eqn:F;
    [discriminate E|].
  injection E as <-.
  assert (Hin : In r (filter (fun r => String.eqb (port_name r) name) ports))
    by (rewrite F; left; reflexivity).
  apply filter_In in Hin as [Hin Hn]. split; [exact Hin | now apply String.eqb_eq].
Qed.

Lemma get_port_df_none_iff name :
  fst (get_port_df ports name) = None <->
  forall p, In p ports -> port_name p <> name.
Proof.
  unfold get_port_df.
  destruct (filter (fun r => String.eqb (port_name r) name) ports) as [| r rest] eqn:F;
    simpl.
  - split; [|reflexivity]. intros _ p Hp Hn.
    assert (Hin : In p (filter (fun r => String.eqb (port_name r) name) ports))
      by (apply filter_In; split; [exact Hp | now apply String.eqb_eq]).
    rewrite F in Hin. destruct Hin.
  - split; [discriminate|]. intros Hall. exfalso.
    assert (Hin : In r (filter (fun r => String.eqb (port_name r) name) ports))
      by (rewrite F; left; reflexivity).
    apply filter_In in Hin as [Hin Hn]. apply String.eqb_eq in Hn.
    exact (Hall r Hin Hn).
Qed.

Lemma fold_loop_warnings max_vol ships acc :
  warnings (fold_left (loop_body ports max_vol) ships acc) =
    warnings acc ++ flat_map (ship_warnings ports) ships.
Proof.
  revert acc. induction ships as [| s ships IH]; intros acc.
  - simpl. now rewrite app_nil_r.
  - simpl fold_left. rewrite IH. simpl flat_map. rewrite app_assoc. f_equal.
    unfold loop_body, ship_warnings.
    destruct (get_port_df ports (ship_from s)) as [[p|] w1];
      destruct (get_port_df ports (ship_to s)) as [[q|] w2]; reflexivity.
Qed.

Lemma ship_warnings_nil s : ship_warnings ports s = [] <-> has_ports ports s = true.
Proof.
  unfold ship_warnings, has_ports. rewrite !get_port_df_warning.
  destruct (fst (get_port_df ports (ship_from s)));
    destruct (fst (get_port_df ports (ship_to s))); simpl;
    split; intros H; try reflexivity; discriminate H.
Qed.

Lemma in_ship_warnings s name :
  In (PortNotFound name) (ship_warnings ports s) <->
  (ship_from s = name \/ ship_to s = name) /\
  fst (get_port_df ports name) = None.
Proof.
  unfold ship_warnings. rewrite in_app_iff, !get_port_df_warning. split.
  - intros [H | H].
    + destruct (fst (get_port_df ports (ship_from s))) eqn:E; [destruct H|].
      destruct H as [H | []]. injection H as <-. split; [left; reflexivity | exact E].
    + destruct (fst (get_port_df ports (ship_to s))) eqn:E; [destruct H|].
      destruct H as [H | []]. injection H as <-. split; [right; reflexivity | exact E].
  - intros [[<- | <-] E]; [left | right]; rewrite E; left; reflexivity.
Qed.

Lemma run_loop_single max_vol s :
  positions (run_loop ports max_vol [s]) = map fst (ship_rows ports max_vol s) /\
  flows (run_loop ports max_vol [s]) = map snd (ship_rows ports max_vol s).
Proof.
  unfold run_loop, loop_body, ship_rows. simpl.
  destruct (get_port_df ports (ship_from s)) as [[p|] w1];
    destruct (get_port_df ports (ship_to s)) as [[q|] w2]; split; reflexivity.
Qed.

Lemma run_loop_pairs max_vol ships :
  positions (run_loop ports max_vol ships) =
    map fst (flat_map (ship_rows ports max_vol) ships) /\
  flows (run_loop ports max_vol ships) =
    map snd (flat_map (ship_rows ports max_vol) ships).
Proof.
  destruct (run_loop_rows ports max_vol ships) as [-> ->].
  induction ships as [| s ships [IHp IHf]]; [split; reflexivity|].
  simpl flat_map. rewrite !map_app, IHp, IHf.
  destruct (run_loop_single max_vol s) as [-> ->]. split; reflexivity.
Qed.

Lemma ship_rows_describe max_vol ships :
  Forall (fun rf =>
            exists s p q,
              In s ships /\
              fst (get_port_df ports (ship_from s)) = Some p /\
              fst (get_port_df ports (ship_to s)) = Some q /\
              fst rf = position_of max_vol p q s /\
              snd rf = flow_of max_vol p q s)
         (flat_map (ship_rows ports max_vol) ships).
Proof.
  apply Forall_forall. intros rf Hrf.
  apply in_flat_map in Hrf as (s & Hs & Hrf).
  unfold ship_rows in Hrf.
  destruct (fst (get_port_df ports (ship_from s))) as [p|] eqn:Ep; [|destruct Hrf].
  destruct (fst (get_port_df ports (ship_to s))) as [q|] eqn:Eq; [|destruct Hrf].
  destruct Hrf as [<- | []].
  exists s, p, q. repeat split; assumption.
Qed.

Lemma ship_rows_names max_vol ships :
  map (fun rf => pos_name (fst rf)) (flat_map (ship_rows ports max_vol) ships) =
    map ship_name (filter (has_ports ports) ships).
Proof.
  induction ships as [| s ships IH]; [reflexivity|].
  simpl flat_map. rewrite map_app, IH. simpl filter.
  unfold ship_rows, has_ports.
  destruct (fst (get_port_df ports (ship_from s)));
    destruct (fst (get_port_df ports (ship_to s))); reflexivity.
Qed.

End ShipRows.

(** X12. The warnings of compute_positions are the missing ports: there is
    none exactly when every ship has both its ports in the table, and a port
    name is warned about exactly when it is the origin or the destination of
    some ship and no row of the ports table has it. *)
Theorem warnings_are_the_missing_ports :
  forall (ports : list port) (ships : list ship),
    (warnings (compute_positions ports ships) = [] <->
     forall s, In s ships -> has_ports ports s = true) /\
    (forall name,
        In (PortNotFound name) (warnings (compute_positions ports ships)) <->
        exists s, In s ships /\ (ship_from s = name \/ ship_to s = name) /\
                  forall p, In p ports -> port_name p <> name).
Proof.
  intros ports ships. unfold compute_positions, run_loop.
  rewrite fold_loop_warnings. simpl app.
  set (w := flat_map (ship_warnings ports) ships).
  pose proof (get_port_df_none_iff ports) as Hnone.
  split.
  - subst w. split.
    + intros Hnil s Hs. apply ship_warnings_nil.
      destruct (ship_warnings ports s) as [| x l] eqn:E; [reflexivity|].
      assert (Hin : In x (flat_map (ship_warnings ports) ships))
        by (apply in_flat_map; exists s; split; [exact Hs | rewrite E; left; reflexivity]).
      rewrite Hnil in Hin. destruct Hin.
    + intros Hall. induction ships as [| s ships IH]; [reflexivity|].
      simpl. rewrite (proj2 (ship_warnings_nil ports s)) by (apply Hall; left; reflexivity).
      apply IH. intros x Hx. apply Hall. right. exact Hx.
  - intros name. subst w. rewrite in_flat_map. split.
    + intros (s & Hs & Hin). apply in_ship_warnings in Hin as [Hname Hnot].
      exists s. repeat split; [exact Hs | exact Hname | now apply Hnone].
    + intros (s & Hs & Hname & Hnot). exists s. split; [exact Hs|].
      apply in_ship_warnings. split; [exact Hname | now apply Hnone].
Qed.

(** X13. Row i of positions and row i of flows describe the same ship of
    the table: same name, volume and width; the ends of the flow are the
    coordinates of the first ports named as the ship's origin and
    destination, and the position is interpolated between these two ports at
    the ship's progress. *)
Theorem positions_and_flows_are_paired :
  forall (ports : list port) (ships : list ship),
    let t := compute_positions ports ships in
    Forall2
      (fun (r : position_row) (f : flow_row) =>
         pos_name r = flow_name f /\
         pos_volume r = flow_volume f /\
         pos_width r = flow_width f /\
         exists s p q,
           In s ships /\
           fst (get_port_df ports (ship_from s)) = Some p /\
           fst (get_port_df ports (ship_to s)) = Some q /\
           pos_name r = ship_name s /\
           pos_from r = port_name p /\ pos_to r = port_name q /\
           (from_lat f, from_lon f) = (port_lat p, port_lon p) /\
           (to_lat f, to_lon f) = (port_lat q, port_lon q) /\
           (pos_lat r, pos_lon r) = position p q (ship_progress s))
      (positions t) (flows t).
Proof.
  intros ports ships t. subst t. unfold compute_positions.
  set (max_vol := series_max (map ship_volume ships)).
  destruct (run_loop_pairs ports max_vol ships) as [-> ->].
  pose proof (ship_rows_describe ports max_vol ships) as Hd.
  induction (flat_map (ship_rows ports max_vol) ships) as [| [r f] l IH];
    [constructor|].
  apply Forall_cons_iff in Hd as [Hrf Hd].
  simpl map. constructor; [|exact (IH Hd)].
  destruct Hrf as (s & p & q & Hs & Ep & Eq & Hr & Hf). simpl in Hr, Hf.
  subst r f.
  destruct (get_port_df_in ports _ _ Ep) as [_ Np].
  destruct (get_port_df_in ports _ _ Eq) as [_ Nq].
  unfold position_of, flow_of.
  destruct (position p q (ship_progress s)) as [lat lon] eqn:Epos.
  cbn [pos_name pos_volume pos_width pos_from pos_to pos_lat pos_lon
       flow_name flow_volume flow_width from_lat from_lon to_lat to_lon].
  repeat split.
  exists s, p, q. repeat split; auto.
Qed.

Section Filters.

Import ShipView.

Lemma filter_of_map {A B : Type} (f : A -> B) (P : B -> bool) (l : list A) :
  filter P (map f l) = map f (filter (fun x => P (f x)) l).
Proof.
  induction l as [| a l IH]; [reflexivity|].
  simpl. destruct (P (f a)); simpl; now rewrite IH.
Qed.

Lemma filter_twice {A : Type} (P Q : A -> bool) (l : list A) :
  filter Q (filter P l) = filter (fun x => P x && Q x) l.
Proof.
  induction l as [| a l IH]; [reflexivity|].
  simpl. destruct (P a); simpl; [destruct (Q a); simpl|]; now rewrite IH.
Qed.

Lemma NoDup_map_filter {A B : Type} (f : A -> B) (P : A -> bool) (l : list A) :
  NoDup (map f l) -> NoDup (map f (filter P l)).
Proof.
  induction l as [| a l IH]; intros H; [constructor|].
  simpl in H. apply NoDup_cons_iff in H as [Hn Hd].
  simpl. destruct (P a); [|exact (IH Hd)].
  simpl. constructor; [|exact (IH Hd)].
  intros Hin. apply Hn. apply in_map_iff in Hin as (x & Hx & Hin).
  apply filter_In in Hin as [Hin _]. apply in_map_iff. eauto.
Qed.

Lemma NoDup_map_injective {A B : Type} (f : A -> B) (l : list A) (x y : A) :
  NoDup (map f l) -> In x l -> In y l -> f x = f y -> x = y.
Proof.
  induction l as [| a l IH]; intros Hd Hx Hy E; [destruct Hx|].
  simpl in Hd. apply NoDup_cons_iff in Hd as [Hn Hd].
  destruct Hx as [<- | Hx]; destruct Hy as [<- | Hy]; try reflexivity.
  - exfalso. apply Hn. rewrite E. now apply in_map.
  - exfalso. apply Hn. rewrite <- E. now apply in_map.
  - exact (IH Hd Hx Hy E).
Qed.

(** With distinct names, selecting the second components by the names of the
    selected first components selects the same pairs. *)
Lemma select_by_name {A B : Type} (na : A -> string) (nb : B -> string)
  (P : A -> bool) (items : list (A * B)) :
  Forall (fun ab => na (fst ab) = nb (snd ab)) items ->
  NoDup (map (fun ab => na (fst ab)) items) ->
  filter (fun b => existsb (String.eqb (nb b)) (map na (filter P (map fst items))))
         (map snd items)
  = map snd (filter (fun ab => P (fst ab)) items).
Proof.
  intros Hname Hd. rewrite filter_of_map. f_equal.
  apply filter_ext_in. intros [a b] Hab. cbn [fst snd].
  rewrite Forall_forall in Hname.
  pose proof (Hname (a, b) Hab) as Eab. cbn [fst snd] in Eab.
  destruct (P a) eqn:Pa.
  - apply existsb_exists. exists (na a). split; [|rewrite Eab; apply String.eqb_refl].
    apply in_map. apply filter_In. split; [|exact Pa].
    apply (in_map fst) in Hab. exact Hab.
  - apply not_true_is_false. intros H.
    apply existsb_exists in H as (n & Hn & En).
    apply String.eqb_eq in En. subst n.
    apply in_map_iff in Hn as (a' & Ea' & Ha').
    apply filter_In in Ha' as [Ha' Pa'].
    apply in_map_iff in Ha' as ([a'' b'] & E'' & Hab'). cbn [fst] in E''. subst a''.
    assert (Heq : (a', b') = (a, b)).
    { apply (NoDup_map_injective (fun ab => na (fst ab)) items); try assumption.
      cbn [fst]. rewrite Ea', Eab. reflexivity. }
    injection Heq as -> _. rewrite Pa in Pa'. discriminate Pa'.
Qed.

Lemma filter_nil_iff {A : Type} (P : A -> bool) (l : list A) :
  filter P l = [] <-> forall x, In x l -> P x = false.
Proof.
  split.
  - intros E x Hx. destruct (P x) eqn:H; [|reflexivity].
    assert (Hin : In x (filter P l)) by (apply filter_In; split; assumption).
    rewrite E in Hin. destruct Hin.
  - intros Hall. induction l as [| a l IH]; [reflexivity|].
    simpl. rewrite (Hall a (or_introl eq_refl)).
    apply IH. intros x Hx. apply Hall. right. exact Hx.
Qed.

Lemma filtered_ships_is_filter (ships_pos_df : list position_row)
  (vol_range : float * float) (selected_port : string) (fs : list position_row) :
  filtered_ships ships_pos_df vol_range selected_port = Found fs ->
  exists P, fs = filter P ships_pos_df.
Proof.
  intros E.
  exists (fun r => ((fst vol_range <=? pos_volume r)%float
                    && (pos_volume r <=? snd vol_range)%float)
                   && (String.eqb selected_port "All"
                       || String.eqb (pos_from r) selected_port)).
  assert (Hfs : filtered_ships ships_pos_df vol_range selected_port =
                match ships_pos_df with
                | [] => KeyError "volume"
                | _ :: _ =>
                    Found (filter
                             (fun r => ((fst vol_range <=? pos_volume r)%float
                                        && (pos_volume r <=? snd vol_range)%float)
                                       && (String.eqb selected_port "All"
                                           || String.eqb (pos_from r) selected_port))
                             ships_pos_df)
                end).
  { unfold filtered_ships. destruct ships_pos_df as [| r l]; [reflexivity|].
    f_equal. destruct (String.eqb selected_port "All").
    - apply filter_ext. intros a. cbn [orb]. now rewrite andb_true_r.
    - rewrite filter_twice. reflexivity. }
  rewrite Hfs in E. destruct ships_pos_df as [| r l]; [discriminate E|].
  now injection E.
Qed.

End Filters.

(** X14. The filters of the page raise KeyError on the column volume
    exactly when compute_positions emitted no row, that is when no ship of
    the table has both its ports (an empty ships table included); no other
    column is ever missing. *)
Theorem page_raises_when_no_ship_is_kept :
  forall (ports : list port) (ships : list ship)
         (vol_range : float * float) (selected_port : string),
    (ShipView.page_tables ports ships vol_range selected_port
       = ShipView.KeyError "volume" <->
     forall s, In s ships -> has_ports ports s = false) /\
    (forall c,
        ShipView.page_tables ports ships vol_range selected_port
          = ShipView.KeyError c -> c = "volume"%string).
Proof.
  intros ports ships vol_range selected_port.
  unfold ShipView.page_tables, compute_positions.
  set (max_vol := series_max (map ship_volume ships)).
  destruct (one_row_per_kept_ship ports max_vol ships) as (Lp & Lf & _ & _).
  cbv zeta in Lp, Lf.
  pose proof (filter_nil_iff (has_ports ports) ships) as Hkept.
  unfold ShipView.filtered_ships, ShipView.filtered_flows.
  destruct (positions (run_loop ports max_vol ships)) as [| r lp];
    destruct (flows (run_loop ports max_vol ships)) as [| f lf];
    destruct (filter (has_ports ports) ships) as [| k lk];
    try discriminate Lp; try discriminate Lf.
  - split; [|intros c E; now injection E].
    split; [intros _; now apply Hkept | reflexivity].
  - split; [|discriminate].
    split; [discriminate|].
    intros Hall. apply Hkept in Hall. discriminate Hall.
Qed.

(** X15. When the names of the ships are distinct and the page gets its two
    filtered tables, the filtered flows are the flows of the filtered ships:
    same names, volumes and widths, in the same order. *)
Theorem filtered_flows_follow_filtered_ships :
  forall (ports : list port) (ships : list ship)
         (vol_range : float * float) (selected_port : string)
         (fs : list position_row) (ff : list flow_row),
    NoDup (map ship_name ships) ->
    ShipView.page_tables ports ships vol_range selected_port
      = ShipView.Found (fs, ff) ->
    map flow_name ff = map pos_name fs /\
    map flow_volume ff = map pos_volume fs /\
    map flow_width ff = map pos_width fs.
Proof.
  intros ports ships vol_range selected_port fs ff Hd.
  unfold ShipView.page_tables, compute_positions.
  set (max_vol := series_max (map ship_volume ships)).
  destruct (run_loop_pairs ports max_vol ships) as [-> ->].
  pose proof (ship_rows_describe ports max_vol ships) as Hdesc.
  pose proof (ship_rows_names ports max_vol ships) as Hnames.
  set (items := flat_map (ship_rows ports max_vol) ships) in *.
  destruct (ShipView.filtered_ships (map fst items) vol_range selected_port)
    as [fs'|c] eqn:Efs; [|discriminate].
  destruct (filtered_ships_is_filter _ _ _ _ Efs) as (P & ->).
  unfold ShipView.filtered_flows.
  destruct (map snd items) as [| f0 l0] eqn:Esnd; [discriminate|].
  rewrite <- Esnd. intros E. injection E as <- <-.
  assert (Hpair : Forall (fun rf => pos_name (fst rf) = flow_name (snd rf) /\
                                    pos_volume (fst rf) = flow_volume (snd rf) /\
                                    pos_width (fst rf) = flow_width (snd rf)) items).
  { eapply Forall_impl; [|exact Hdesc].
    intros [r f] (s & p & q & _ & _ & _ & Hr & Hf). cbn [fst snd] in *.
    subst r f. unfold position_of, flow_of.
    destruct (position p q (ship_progress s)). repeat split. }
  rewrite (select_by_name pos_name flow_name P items).
  - rewrite filter_of_map, !map_map.
    assert (Hsub : Forall (fun rf => pos_name (fst rf) = flow_name (snd rf) /\
                                     pos_volume (fst rf) = flow_volume (snd rf) /\
                                     pos_width (fst rf) = flow_width (snd rf))
                          (filter (fun x => P (fst x)) items)).
    { apply Forall_forall. intros x Hx. apply filter_In in Hx as [Hx _].
      rewrite Forall_forall in Hpair. exact (Hpair x Hx). }
    induction (filter (fun x => P (fst x)) items) as [| x l IH];
      [repeat split|].
    apply Forall_cons_iff in Hsub as [(En & Ev & Ew) Hsub].
    destruct (IH Hsub) as (IHn & IHv & IHw).
    simpl. rewrite En, Ev, Ew, IHn, IHv, IHw. repeat split.
  - eapply Forall_impl; [|exact Hpair]. intros x H. exact (proj1 H).
  - rewrite Hnames. apply NoDup_map_filter. exact Hd.
Qed.

Lemma filtered_flows_follow_filtered_ships_witness :
  exists fs ff,
    ShipView.page_tables mock_ports mock_ships (2, 3)%float "Houston"
      = ShipView.Found (fs, ff) /\
    map flow_name ff = ["Crude Titan"; "Black Pearl"]%string /\
    map pos_name fs = ["Crude Titan"; "Black Pearl"]%string.
Proof.
  destruct (ShipView.page_tables mock_ports mock_ships (2, 3)%float "Houston")
    as [[fs ff]|c] eqn:E; [|vm_compute in E; discriminate E].
  exists fs, ff.
  destruct (filtered_flows_follow_filtered_ships mock_ports mock_ships
              (2, 3)%float "Houston" fs ff) as (Hn & _ & _).
  - repeat constructor; simpl; intuition discriminate.
  - exact E.
  - split; [reflexivity|]. rewrite Hn.
    vm_compute in E. injection E as <- _. split; reflexivity.
Defined.

(** ** The guard of the history table *)

Lemma for_each_length {A B : Type} (f : A -> result B) (l : list A) (ys : list B) :
  for_each f l = Ok ys -> List.length ys = List.length l.
Proof.
  revert ys. induction l as [| a l IH]; intros ys E.
  - injection E as <-. reflexivity.
  - simpl in E. destruct (f a) as [b|e]; [|discriminate E].
    simpl in E. destruct (for_each f l) as [ys'|e]; [|discriminate E].
    injection E as <-. simpl. now rewrite (IH ys' eq_refl).
Qed.

(** X16. Whenever the history table is built (line 318: some buffer is not
    empty) and its rows are computed without an exception, there is at least
    one row: the test of line 337 never keeps the table from being shown. *)
Theorem shown_table_has_rows :
  forall (format_2f : pyval -> result string) (h : history) (rows : list row),
    AppView.table_shown h = true ->
    history_data format_2f h = Ok rows ->
    rows <> [].
Proof.
  intros format_2f h rows Hshown E Hnil. subst rows.
  apply for_each_length in E. rewrite length_seq in E. simpl in E.
  unfold AppView.table_shown in Hshown.
  destruct (h_wti h) as [| ew lw]; destruct (h_brent h) as [| eb lb];
    simpl in Hshown, E; try discriminate Hshown; try discriminate E.
Qed.

Lemma shown_table_has_rows_witness :
  [ {| Timestamp := "00:00:00"; WTI_Price := Some "$75.00"%string;
       Brent_Price := None |} ] <> [].
Proof.
  exact (shown_table_has_rows format_2f_small
           {| h_wti := [ {| e_price := PInt 75; e_timestamp := 0 |} ]; h_brent := [] |}
           [ {| Timestamp := "00:00:00"; WTI_Price := Some "$75.00"%string;
                Brent_Price := None |} ]
           eq_refl eq_refl).
Defined.
